(** * DockerFileAnalysis: the analysis pipeline and the speed estimator

    A shallow embedding of [src/services/geminiService.ts] (JSON extraction,
    the three remote analysis operations and their fallback data) and of the
    three handlers of the [App] component that write the results record
    ([analyzeFiles], [analyzeCompilation], [testInternetSpeed]).

    Conventions of the embedding.
    - A JavaScript string is a [string]; a character stands for the UTF-16
      code unit of the same number, so the texts covered are those whose
      code units are below 256.
    - A JavaScript number is an exact rational or one of NaN, +Infinity,
      -Infinity ([JSNum]); binary64 rounding is not modelled, and the two
      zeros are identified.
    - An [async] function is a function into [Completion]: [Normal v] for a
      promise fulfilled with [v], [Throw] for a rejected one.  [try]/[catch]
      is [try_catch]. *)

From Stdlib Require Import String Ascii List Bool Arith ZArith QArith Lia.
From Stdlib Require Import Qround DecimalString Lqa.
Import ListNotations.

Open Scope string_scope.

(** ** Strings *)

Module Str.

(** [startsWith]: [p] is a prefix of [s]. *)
Fixpoint starts_with (p s : string) : bool :=
  match p with
  | EmptyString => true
  | String a p' =>
      match s with
      | EmptyString => false
      | String b s' => Ascii.eqb a b && starts_with p' s'
      end
  end.

(** [s.slice(n)]. *)
Fixpoint skip (n : nat) (s : string) : string :=
  match n with
  | O => s
  | S n' => match s with
            | EmptyString => EmptyString
            | String _ s' => skip n' s'
            end
  end.

Fixpoint contains_char (c : ascii) (s : string) : bool :=
  match s with
  | EmptyString => false
  | String a s' => Ascii.eqb a c || contains_char c s'
  end.

(** White space and line terminators of ECMAScript among the code units
    below 256: TAB, LF, VT, FF, CR, SP and NBSP. *)
Definition is_white_space (c : ascii) : bool :=
  let n := nat_of_ascii c in
  ((n =? 9) || (n =? 10) || (n =? 11) || (n =? 12) || (n =? 13)
   || (n =? 32) || (n =? 160))%nat.

Fixpoint trim_start (s : string) : string :=
  match s with
  | EmptyString => EmptyString
  | String c s' => if is_white_space c then trim_start s' else s
  end.

Fixpoint trim_end (s : string) : string :=
  match s with
  | EmptyString => EmptyString
  | String c s' =>
      match trim_end s' with
      | EmptyString => if is_white_space c then EmptyString else String c EmptyString
      | t => String c t
      end
  end.

(** [String.prototype.trim]. *)
Definition trim (s : string) : string := trim_end (trim_start s).

(** The double quote, and line feed. *)
Definition dq : string := String (ascii_of_nat 34) EmptyString.
Definition nl : string := String (ascii_of_nat 10) EmptyString.

(** [s] between double quotes. *)
Definition quoted (s : string) : string := dq ++ s ++ dq.

End Str.

(** ** The two regular expressions of [extractJSON]

    [String.prototype.match] with a pattern that has no [g] flag returns the
    leftmost match: the matcher is tried at position 0, then 1, and so on.
    [[\s\S]] accepts every code unit. *)

Module Regex.
Import Str.

(** [[\s\S]*?] followed by the literal [lit], tried at the head of [s]:
    the lazy star takes zero characters first and one more each time the
    literal fails.  The result is the text the star consumed. *)
Fixpoint lazy_until (lit s : string) : option string :=
  if starts_with lit s then Some EmptyString
  else match s with
       | EmptyString => None
       | String c s' =>
           match lazy_until lit s' with
           | Some cap => Some (String c cap)
           | None => None
           end
       end.

(** [[\s\S]*] followed by [}] tried at the head of [s]: the greedy star takes
    as much as it can and gives back one character at a time.  The result is
    the whole text matched, closing brace included. *)
Fixpoint greedy_to_brace (s : string) : option string :=
  match s with
  | EmptyString => None
  | String c s' =>
      match greedy_to_brace s' with
      | Some m => Some (String c m)
      | None => if Ascii.eqb c "}" then Some (String c EmptyString) else None
      end
  end.

Definition fence_open : string := "```json".
Definition fence_close : string := "```".

(** [/```json([\s\S]*?)```/] anchored at the head of [s]; the result is
    capture group 1. *)
Definition match_fence_here (s : string) : option string :=
  if starts_with fence_open s
  then lazy_until fence_close (skip (String.length fence_open) s)
  else None.

(** [/{[\s\S]*}/] anchored at the head of [s]; the result is the match. *)
Definition match_curly_here (s : string) : option string :=
  match s with
  | String c s' =>
      if Ascii.eqb c "{" then
        match greedy_to_brace s' with
        | Some m => Some (String c m)
        | None => None
        end
      else None
  | EmptyString => None
  end.

(** The leftmost match of an anchored matcher [m] in [s]. *)
Fixpoint leftmost (m : string -> option string) (s : string) : option string :=
  match m s with
  | Some r => Some r
  | None => match s with
            | EmptyString => None
            | String _ s' => leftmost m s'
            end
  end.

End Regex.

(** ** geminiService.ts: extractJSON *)

Module Extract.
Import Str Regex.

(** [function extractJSON(text: string): string | null]; [None] is [null]. *)
Definition extractJSON (text : string) : option string :=
  match leftmost match_fence_here text with
  | Some cap => Some (trim cap)
  | None =>
      match leftmost match_curly_here text with
      | Some m => Some m
      | None => None
      end
  end.

End Extract.

(** ** JavaScript values *)

Module JS.
Import Str.

(** The outcome of evaluating an expression or awaiting a promise. *)
Inductive Completion (A : Type) : Type :=
| Normal (a : A)
| Throw.
Arguments Normal {A} a.
Arguments Throw {A}.

Definition bind {A B : Type} (c : Completion A) (k : A -> Completion B)
  : Completion B :=
  match c with
  | Normal a => k a
  | Throw => Throw
  end.

(** [try { body } catch { handler }]. *)
Definition try_catch {A : Type} (body handler : Completion A) : Completion A :=
  match body with
  | Normal a => Normal a
  | Throw => handler
  end.

(** Numbers. *)
Inductive JSNum : Type :=
| NaN
| PosInf
| NegInf
| Fin (q : Q).

Definition Qltb (x y : Q) : bool := negb (Qle_bool y x).

Definition num_neg (a : JSNum) : JSNum :=
  match a with
  | NaN => NaN
  | PosInf => NegInf
  | NegInf => PosInf
  | Fin x => Fin (- x)
  end.

(** The infinity that has the sign of [x], NaN for zero. *)
Definition inf_of_sign (x : Q) : JSNum :=
  if Qeq_bool x 0 then NaN else if Qltb 0 x then PosInf else NegInf.

(** [a * b]. *)
Definition num_mul (a b : JSNum) : JSNum :=
  match a, b with
  | NaN, _ | _, NaN => NaN
  | Fin x, Fin y => Fin (x * y)
  | Fin x, PosInf | PosInf, Fin x => inf_of_sign x
  | Fin x, NegInf | NegInf, Fin x => num_neg (inf_of_sign x)
  | PosInf, PosInf | NegInf, NegInf => PosInf
  | PosInf, NegInf | NegInf, PosInf => NegInf
  end.

(** [a / b]; a zero divisor is +0. *)
Definition num_div (a b : JSNum) : JSNum :=
  match a, b with
  | NaN, _ | _, NaN => NaN
  | Fin x, Fin y => if Qeq_bool y 0 then inf_of_sign x else Fin (x / y)
  | Fin _, PosInf | Fin _, NegInf => Fin 0
  | PosInf, Fin y => if Qltb y 0 then NegInf else PosInf
  | NegInf, Fin y => if Qltb y 0 then PosInf else NegInf
  | _, _ => NaN
  end.

(** [a + b]. *)
Definition num_add (a b : JSNum) : JSNum :=
  match a, b with
  | NaN, _ | _, NaN => NaN
  | Fin x, Fin y => Fin (x + y)
  | PosInf, NegInf | NegInf, PosInf => NaN
  | PosInf, _ | _, PosInf => PosInf
  | NegInf, _ | _, NegInf => NegInf
  end.

(** [a - b]. *)
Definition num_sub (a b : JSNum) : JSNum := num_add a (num_neg b).

(** [a < b] and [a <= b]. *)
Definition num_lt (a b : JSNum) : bool :=
  match a, b with
  | NaN, _ | _, NaN => false
  | Fin x, Fin y => Qltb x y
  | _, NegInf | PosInf, _ => false
  | NegInf, _ | _, PosInf => true
  end.

Definition num_le (a b : JSNum) : bool :=
  match a, b with
  | NaN, _ | _, NaN => false
  | Fin x, Fin y => Qle_bool x y
  | NegInf, _ | _, PosInf => true
  | _, NegInf | PosInf, _ => false
  end.

(** Truncation toward zero. *)
Definition Qtrunc (x : Q) : Z := if Qltb x 0 then Qceiling x else Qfloor x.

(** [a % b]: the remainder has the sign of the dividend. *)
Definition num_rem (a b : JSNum) : JSNum :=
  match a, b with
  | NaN, _ | _, NaN | PosInf, _ | NegInf, _ => NaN
  | Fin x, PosInf | Fin x, NegInf => Fin x
  | Fin x, Fin y =>
      if Qeq_bool y 0 then NaN else Fin (x - y * inject_Z (Qtrunc (x / y)))
  end.

Definition Math_max (a b : JSNum) : JSNum :=
  match a, b with
  | NaN, _ | _, NaN => NaN
  | PosInf, _ | _, PosInf => PosInf
  | NegInf, x | x, NegInf => x
  | Fin x, Fin y => if Qltb x y then Fin y else Fin x
  end.

Definition Math_floor (a : JSNum) : JSNum :=
  match a with
  | Fin x => Fin (inject_Z (Qfloor x))
  | _ => a
  end.

Definition Math_ceil (a : JSNum) : JSNum :=
  match a with
  | Fin x => Fin (inject_Z (Qceiling x))
  | _ => a
  end.

(** [Math.round]: the nearest integer, a tie going up. *)
Definition Math_round (a : JSNum) : JSNum :=
  match a with
  | Fin x => Fin (inject_Z (Qfloor (x + (1 # 2))))
  | _ => a
  end.

Definition Z_to_string (z : Z) : string :=
  NilEmpty.string_of_int (Z.to_int z).

(** [Number::toString] on NaN, the infinities and the integers, which are
    the numbers the program prints (results of [Math.ceil] and
    [Math.floor]); an integer is printed positionally, as JavaScript does
    below 10^21.  A finite number is printed as its integer part. *)
Definition number_to_string (a : JSNum) : string :=
  match a with
  | NaN => "NaN"
  | PosInf => "Infinity"
  | NegInf => "-Infinity"
  | Fin x => Z_to_string (Qfloor x)
  end.

(** Values.  [JSON.parse] produces every form but [JUndefined]; reading an
    absent property produces [JUndefined]. *)
#[local] Unset Elimination Schemes.
Inductive JSValue : Type :=
| JUndefined
| JNull
| JBool (b : bool)
| JNumber (n : JSNum)
| JString (s : string)
| JArray (items : list JSValue)
| JObject (fields : list (string * JSValue)).
#[local] Set Elimination Schemes.

(** [ToBoolean]. *)
Definition truthy (v : JSValue) : bool :=
  match v with
  | JUndefined | JNull => false
  | JBool b => b
  | JNumber NaN => false
  | JNumber (Fin x) => negb (Qeq_bool x 0)
  | JNumber _ => true
  | JString s => negb (String.eqb s "")
  | JArray _ | JObject _ => true
  end.

Definition Array_isArray (v : JSValue) : bool :=
  match v with
  | JArray _ => true
  | _ => false
  end.

Fixpoint lookup (key : string) (fields : list (string * JSValue))
  : option JSValue :=
  match fields with
  | [] => None
  | (k, v) :: rest => if String.eqb k key then Some v else lookup key rest
  end.

(** [v.key] for a property name that no built-in prototype defines (the
    program reads [requirements], [totalSize] and [totalEstimatedTime]):
    a TypeError on [null] and [undefined], the own property of an object,
    [undefined] otherwise. *)
Definition get_prop (v : JSValue) (key : string) : Completion JSValue :=
  match v with
  | JUndefined | JNull => Throw
  | JObject fields =>
      match lookup key fields with
      | Some x => Normal x
      | None => Normal JUndefined
      end
  | _ => Normal JUndefined
  end.

(** [a || b] on a nullable string: the empty string is falsy as [null] is. *)
Definition or_else (a : option string) (b : string) : string :=
  match a with
  | Some s => if String.eqb s "" then b else s
  | None => b
  end.

End JS.

(** ** Reading numbers and JSON text

    [parseFloat] and [JSON.parse] belong to the platform.  The analysis
    operations below take [JSON.parse] as a parameter; [Platform.JSON_parse]
    is the instance used in the closed examples. *)

Module Platform.
Import Str JS.

Definition is_digit (c : ascii) : bool :=
  let n := nat_of_ascii c in ((48 <=? n) && (n <=? 57))%nat.

Definition digit_value (c : ascii) : Z := Z.of_nat (nat_of_ascii c - 48).

(** Reads a run of decimal digits: the number read on top of [acc], how many
    digits were read, and the rest of the text. *)
Fixpoint read_digits (acc : Z) (count : nat) (s : string) : Z * nat * string :=
  match s with
  | EmptyString => (acc, count, EmptyString)
  | String c s' =>
      if is_digit c
      then read_digits (acc * 10 + digit_value c)%Z (S count) s'
      else (acc, count, s)
  end.

(** [m * 10^e]. *)
Definition scale10 (m : Q) (e : Z) : Q :=
  if (0 <=? e)%Z then m * inject_Z (10 ^ e) else m / inject_Z (10 ^ (- e)).

(** An exponent part [e], [E] with an optional sign and at least one digit;
    without a digit there is no exponent part. *)
Definition read_exponent (s : string) : Z * string :=
  match s with
  | String c r =>
      if Ascii.eqb c "e" || Ascii.eqb c "E" then
        let '(neg, r1) :=
          match r with
          | String sg r' =>
              if Ascii.eqb sg "-" then (true, r')
              else if Ascii.eqb sg "+" then (false, r')
              else (false, r)
          | EmptyString => (false, r)
          end in
        let '(e, n, r2) := read_digits 0 0 r1 in
        match n with
        | O => (0%Z, s)
        | S _ => ((if neg then - e else e)%Z, r2)
        end
      else (0%Z, s)
  | EmptyString => (0%Z, s)
  end.

(** The unsigned part of a [StrDecimalLiteral] at the head of [s]. *)
Definition read_decimal (s : string) : option (Q * string) :=
  let '(ip, n1, r1) := read_digits 0 0 s in
  let '(m, n2, r2) :=
    match r1 with
    | String c r =>
        if Ascii.eqb c "." then read_digits ip 0 r else (ip, O, r1)
    | EmptyString => (ip, O, r1)
    end in
  match (n1 + n2)%nat with
  | O => None
  | S _ =>
      let '(e, r3) := read_exponent r2 in
      Some (scale10 (inject_Z m) (e - Z.of_nat n2), r3)
  end.

(** [parseFloat]: leading white space is skipped, the longest prefix that is
    a decimal literal is read, and NaN is the answer when there is none. *)
Definition parseFloat (s : string) : JSNum :=
  let s0 := trim_start s in
  let '(neg, s1) :=
    match s0 with
    | String c r =>
        if Ascii.eqb c "-" then (true, r)
        else if Ascii.eqb c "+" then (false, r)
        else (false, s0)
    | EmptyString => (false, s0)
    end in
  if starts_with "Infinity" s1 then (if neg then NegInf else PosInf)
  else match read_decimal s1 with
       | Some (q, _) => Fin (if neg then - q else q)
       | None => NaN
       end.

(** JSON text. *)
Definition is_json_space (c : ascii) : bool :=
  let n := nat_of_ascii c in
  ((n =? 32) || (n =? 9) || (n =? 10) || (n =? 13))%nat.

Fixpoint skip_space (s : string) : string :=
  match s with
  | EmptyString => EmptyString
  | String c s' => if is_json_space c then skip_space s' else s
  end.

Definition hex_value (c : ascii) : option nat :=
  let n := nat_of_ascii c in
  if ((48 <=? n) && (n <=? 57))%nat then Some (n - 48)%nat
  else if ((97 <=? n) && (n <=? 102))%nat then Some (n - 87)%nat
  else if ((65 <=? n) && (n <=? 70))%nat then Some (n - 55)%nat
  else None.

(** The character a one-letter escape stands for. *)
Definition simple_escape (e : ascii) : option ascii :=
  let n := nat_of_ascii e in
  if (n =? 34)%nat then Some e
  else if Ascii.eqb e "\" then Some e
  else if Ascii.eqb e "/" then Some e
  else if Ascii.eqb e "b" then Some (ascii_of_nat 8)
  else if Ascii.eqb e "f" then Some (ascii_of_nat 12)
  else if Ascii.eqb e "n" then Some (ascii_of_nat 10)
  else if Ascii.eqb e "r" then Some (ascii_of_nat 13)
  else if Ascii.eqb e "t" then Some (ascii_of_nat 9)
  else None.

Definition cons_char (c : ascii) (r : option (string * string))
  : option (string * string) :=
  match r with
  | Some (body, rest) => Some (String c body, rest)
  | None => None
  end.

(** The characters of a string literal after its opening quote, and the
    text after its closing quote.  An escape [\uXXXX] of a code unit above
    255 is outside the texts covered and is refused. *)
Fixpoint read_string (s : string) : option (string * string) :=
  match s with
  | EmptyString => None
  | String c r =>
      if (nat_of_ascii c =? 34)%nat then Some (EmptyString, r)
      else if Ascii.eqb c "\" then
        match r with
        | EmptyString => None
        | String e r' =>
            if Ascii.eqb e "u" then
              match r' with
              | String h1 (String h2 (String h3 (String h4 r''))) =>
                  match hex_value h1, hex_value h2, hex_value h3, hex_value h4 with
                  | Some O, Some O, Some a, Some b =>
                      cons_char (ascii_of_nat (16 * a + b)) (read_string r'')
                  | _, _, _, _ => None
                  end
              | _ => None
              end
            else
              match simple_escape e with
              | Some ch => cons_char ch (read_string r')
              | None => None
              end
        end
      else if (nat_of_ascii c <? 32)%nat then None
      else cons_char c (read_string r)
  end.

(** A JSON number: [-]? int frac? exp?, the integer part without a
    superfluous leading zero and the fraction with at least one digit.
    The number is read exactly: it neither underflows to zero nor
    overflows to Infinity as a binary64 number does. *)
Definition read_number (s : string) : option (JSNum * string) :=
  let '(neg, s1) :=
    match s with
    | String c r => if Ascii.eqb c "-" then (true, r) else (false, s)
    | EmptyString => (false, s)
    end in
  let '(ip, n1, r1) := read_digits 0 0 s1 in
  let leading_zero :=
    match s1 with
    | String c _ => Ascii.eqb c "0" && (1 <? n1)%nat
    | EmptyString => false
    end in
  match n1 with
  | O => None
  | S _ =>
      if leading_zero then None
      else
        let frac :=
          match r1 with
          | String c r =>
              if Ascii.eqb c "." then
                let '(m, n2, r2) := read_digits ip 0 r in
                match n2 with
                | O => None
                | S _ => Some (m, n2, r2)
                end
              else Some (ip, O, r1)
          | EmptyString => Some (ip, O, r1)
          end in
        match frac with
        | None => None
        | Some (m, n2, r2) =>
            let '(e, r3) := read_exponent r2 in
            let q := scale10 (inject_Z m) (e - Z.of_nat n2) in
            Some (Fin (if neg then - q else q), r3)
        end
  end.

(** Defining a property: a later duplicate of a key replaces the value and
    keeps the place. *)
Fixpoint set_field (k : string) (v : JSValue) (fields : list (string * JSValue))
  : list (string * JSValue) :=
  match fields with
  | [] => [(k, v)]
  | (k', v') :: rest =>
      if String.eqb k' k then (k', v) :: rest
      else (k', v') :: set_field k v rest
  end.

(** A value at the head of [s], and the text after it. *)
Fixpoint read_value (fuel : nat) (s : string) : option (JSValue * string) :=
  match fuel with
  | O => None
  | S fuel' =>
      let s := skip_space s in
      if starts_with "null" s then Some (JNull, skip 4 s)
      else if starts_with "true" s then Some (JBool true, skip 4 s)
      else if starts_with "false" s then Some (JBool false, skip 5 s)
      else
        match s with
        | EmptyString => None
        | String c r =>
            if (nat_of_ascii c =? 34)%nat then
              match read_string r with
              | Some (body, rest) => Some (JString body, rest)
              | None => None
              end
            else if Ascii.eqb c "[" then
              match skip_space r with
              | String c' r' =>
                  if Ascii.eqb c' "]" then Some (JArray [], r')
                  else read_elements fuel' [] r
              | EmptyString => None
              end
            else if Ascii.eqb c "{" then
              match skip_space r with
              | String c' r' =>
                  if Ascii.eqb c' "}" then Some (JObject [], r')
                  else read_members fuel' [] r
              | EmptyString => None
              end
            else
              match read_number s with
              | Some (n, rest) => Some (JNumber n, rest)
              | None => None
              end
        end
  end

with read_elements (fuel : nat) (acc : list JSValue) (s : string)
  : option (JSValue * string) :=
  match fuel with
  | O => None
  | S fuel' =>
      match read_value fuel' s with
      | None => None
      | Some (v, rest) =>
          match skip_space rest with
          | String c r =>
              if Ascii.eqb c "," then read_elements fuel' (acc ++ [v]) r
              else if Ascii.eqb c "]" then Some (JArray (acc ++ [v]), r)
              else None
          | EmptyString => None
          end
      end
  end

with read_members (fuel : nat) (acc : list (string * JSValue)) (s : string)
  : option (JSValue * string) :=
  match fuel with
  | O => None
  | S fuel' =>
      match skip_space s with
      | String q r =>
          if (nat_of_ascii q =? 34)%nat then
            match read_string r with
            | None => None
            | Some (key, rest) =>
                match skip_space rest with
                | String colon r1 =>
                    if Ascii.eqb colon ":" then
                      match read_value fuel' r1 with
                      | None => None
                      | Some (v, rest1) =>
                          match skip_space rest1 with
                          | String c r2 =>
                              if Ascii.eqb c ","
                              then read_members fuel' (set_field key v acc) r2
                              else if Ascii.eqb c "}"
                              then Some (JObject (set_field key v acc), r2)
                              else None
                          | EmptyString => None
                          end
                      end
                    else None
                | EmptyString => None
                end
            end
          else None
      | EmptyString => None
      end
  end.

(** [JSON.parse]: one value with nothing but white space around it, a
    SyntaxError otherwise. *)
Definition JSON_parse (text : string) : Completion JSValue :=
  match read_value (2 * String.length text + 2) text with
  | Some (v, rest) =>
      match skip_space rest with
      | EmptyString => Normal v
      | String _ _ => Throw
      end
  | None => Throw
  end.

End Platform.

(** ** geminiService.ts: the remote analysis client *)

Module GeminiService.
Import Str JS Extract.

Inductive Tier : Type := low | medium | high | extreme.
Inductive Architecture : Type := x86_64 | arm64 | multi.
Inductive Environment : Type := local | ci_cd | cloud.

(** [interface ComputeCapabilities]. *)
Record ComputeCapabilities : Type := {
  cpu : Tier;
  memory : Tier;
  architecture : Architecture;
  environment : Environment
}.

Definition tier_text (t : Tier) : string :=
  match t with
  | low => "low"
  | medium => "medium"
  | high => "high"
  | extreme => "extreme"
  end.

Definition architecture_text (a : Architecture) : string :=
  match a with
  | x86_64 => "x86_64"
  | arm64 => "arm64"
  | multi => "multi"
  end.

Definition environment_text (e : Environment) : string :=
  match e with
  | local => "local"
  | ci_cd => "ci_cd"
  | cloud => "cloud"
  end.

(** The remote capability: what awaiting
    [genAI.getGenerativeModel({ model }).generateContent(prompt)] and then
    [response.text()] gives for a model name and a prompt, a text or an
    error. *)
Definition GenerativeAI : Type := string -> string -> Completion string.

(** The fallback data. *)
Definition getFallbackDockerAnalysis : JSValue :=
  JArray
    [ JObject
        [ ("instruction", JString "FROM python:3.9-slim");
          ("description", JString "Sets the base image to Python 3.9 slim version");
          ("impact", JString "Downloads ~45MB base image");
          ("compilationTime", JString "30s");
          ("computeIntensity", JString "low") ];
      JObject
        [ ("instruction", JString "WORKDIR /app");
          ("description", JString "Creates and sets working directory to /app");
          ("impact", JString "Minimal impact, creates directory structure");
          ("compilationTime", JString "<1s");
          ("computeIntensity", JString "low") ];
      JObject
        [ ("instruction", JString "COPY requirements.txt .");
          ("description", JString "Copies requirements file to container");
          ("impact", JString "Small file copy, ~1KB typically");
          ("compilationTime", JString "<1s");
          ("computeIntensity", JString "low") ];
      JObject
        [ ("instruction", JString "RUN pip install -r requirements.txt");
          ("description", JString "Installs Python dependencies");
          ("impact", JString "Variable impact based on requirements");
          ("compilationTime", JString "5-15m");
          ("computeIntensity", JString "high") ];
      JObject
        [ ("instruction", JString "COPY . .");
          ("description", JString "Copies application source code");
          ("impact", JString "Depends on application size");
          ("compilationTime", JString "10s");
          ("computeIntensity", JString "low") ];
      JObject
        [ ("instruction", JString "EXPOSE 8000");
          ("description", JString "Exposes port 8000 for the application");
          ("impact", JString "No storage impact, configures networking");
          ("compilationTime", JString "<1s");
          ("computeIntensity", JString "low") ];
      JObject
        [ ("instruction", JString ("CMD [" ++ dq ++ "python" ++ dq ++ ", " ++ dq ++ "app.py" ++ dq ++ "]"));
          ("description", JString "Sets the default command to run the application");
          ("impact", JString "No additional impact, sets runtime behavior");
          ("compilationTime", JString "<1s");
          ("computeIntensity", JString "low") ] ].

Definition getFallbackRequirementsAnalysis : JSValue :=
  JObject
    [ ("requirements",
       JArray
         [ JObject
             [ ("package", JString "flask==2.3.3");
               ("estimatedSize", JString "2.1 MB");
               ("description", JString "Web framework for Python applications");
               ("compilationRequired", JBool false);
               ("buildTime", JString "N/A") ];
           JObject
             [ ("package", JString "numpy==1.24.3");
               ("estimatedSize", JString "15.8 MB");
               ("description", JString "Scientific computing library");
               ("compilationRequired", JBool true);
               ("buildTime", JString "3-8m") ];
           JObject
             [ ("package", JString "pandas==2.0.3");
               ("estimatedSize", JString "28.4 MB");
               ("description", JString "Data manipulation and analysis library");
               ("compilationRequired", JBool true);
               ("buildTime", JString "5-12m") ];
           JObject
             [ ("package", JString "requests==2.31.0");
               ("estimatedSize", JString "1.5 MB");
               ("description", JString "HTTP library for API requests");
               ("compilationRequired", JBool false);
               ("buildTime", JString "N/A") ];
           JObject
             [ ("package", JString "sqlalchemy==2.0.20");
               ("estimatedSize", JString "3.2 MB");
               ("description", JString "Database toolkit and ORM");
               ("compilationRequired", JBool false);
               ("buildTime", JString "N/A") ] ]);
      ("totalSize", JString "51.0 MB") ].

Definition getFallbackCompilationAnalysis : JSValue :=
  JObject
    [ ("totalEstimatedTime", JString "8-15 minutes");
      ("bottlenecks",
       JArray
         [ JString "NumPy compilation from source (3-8 minutes)";
           JString "Pandas native extensions (5-12 minutes)";
           JString "Single-threaded pip install process";
           JString "No build cache utilization" ]);
      ("recommendations",
       JArray
         [ JString "Use multi-stage builds to cache compilation steps";
           JString "Consider using pre-built wheels when available";
           JString "Implement Docker layer caching in CI/CD";
           JString "Use BuildKit for parallel builds";
           JString "Pin exact versions to improve cache hits" ]);
      ("parallelizable", JBool true) ].

(** The prompts. *)
Definition dockerfile_prompt (dockerfileContent : string) : string :=
  "
    Analyze this Dockerfile with focus on compilation times and compute requirements:
    "
  ++ dockerfileContent
  ++ "
    
    For each instruction, analyze:
    1. The exact instruction
    2. A clear description of what it does
    3. The impact on image size or build time
    4. Estimated compilation time (if applicable)
    5. Compute intensity level (low/medium/high/extreme)
    
    Pay special attention to:
    - Native compilation steps (gcc, make, cargo build, etc.)
    - Multi-stage builds and their complexity
    - Package installations that require compilation
    - Architecture-specific builds
    - Parallel build opportunities
    
    Return as JSON array with objects containing: instruction, description, impact, compilationTime, computeIntensity
    ".

Definition requirements_prompt (requirementsContent : string) : string :=
  "
    Analyze this requirements.txt file focusing on compilation requirements and build times:
    "
  ++ requirementsContent
  ++ "
    
    For each package, analyze:
    1. The package name with version
    2. Estimated download size
    3. Brief description of what the package does
    4. Whether compilation from source is required
    5. Estimated build time if compilation is needed
    
    Consider packages that commonly require compilation:
    - NumPy, SciPy, Pandas (C extensions)
    - Pillow (image processing)
    - lxml (XML processing)
    - Cryptography libraries
    - Machine learning libraries (TensorFlow, PyTorch)
    
    Return as JSON: { requirements: [{ package, estimatedSize, description, compilationRequired, buildTime }], totalSize: " ++ dq ++ "XX.X MB" ++ dq ++ " }
    ".

Definition compilation_prompt (dockerfileContent requirementsContent : string)
  (computeCapabilities : ComputeCapabilities) : string :=
  "
    Analyze the compilation time for this Docker build considering the compute capabilities:
    
    DOCKERFILE:
    "
  ++ dockerfileContent
  ++ "
    
    REQUIREMENTS:
    "
  ++ requirementsContent
  ++ "
    
    COMPUTE CAPABILITIES:
    - CPU: "
  ++ tier_text (cpu computeCapabilities)
  ++ "
    - Memory: "
  ++ tier_text (memory computeCapabilities)
  ++ "
    - Architecture: "
  ++ architecture_text (architecture computeCapabilities)
  ++ "
    - Environment: "
  ++ environment_text (environment computeCapabilities)
  ++ "
    
    Provide analysis including:
    1. Total estimated compilation time
    2. Main bottlenecks that slow down the build
    3. Optimization recommendations
    4. Whether steps can be parallelized
    
    Consider:
    - Multi-architecture builds take 2-5x longer
    - CI/CD environments often have limited CPU/memory
    - Native compilation vs pre-built wheels
    - Docker layer caching opportunities
    - Build context size impact
    
    Return as JSON: { totalEstimatedTime, bottlenecks: [], recommendations: [], parallelizable: boolean }
    ".

Section Client.

(** [JSON.parse], and the module constant [genAI], which is [null] when no
    API key is configured. *)
Variable JSON_parse : string -> Completion JSValue.
Variable genAI : option GenerativeAI.

Definition analyzeDockerfile (dockerfileContent : string) : Completion JSValue :=
  match genAI with
  | None => Normal getFallbackDockerAnalysis
  | Some ai =>
      try_catch
        (bind (ai "gemini-2.0-flash" (dockerfile_prompt dockerfileContent))
           (fun text =>
              let jsonText := or_else (extractJSON text) text in
              try_catch
                (bind (JSON_parse jsonText) (fun parsed =>
                   Normal (if Array_isArray parsed then parsed
                           else getFallbackDockerAnalysis)))
                (Normal getFallbackDockerAnalysis)))
        (Normal getFallbackDockerAnalysis)
  end.

Definition analyzeRequirements (requirementsContent : string)
  : Completion JSValue :=
  match genAI with
  | None => Normal getFallbackRequirementsAnalysis
  | Some ai =>
      try_catch
        (bind (ai "gemini-2.0-flash" (requirements_prompt requirementsContent))
           (fun text =>
              let jsonText := or_else (extractJSON text) text in
              try_catch
                (bind (JSON_parse jsonText) (fun parsed =>
                 bind (get_prop parsed "requirements") (fun reqs =>
                   if truthy reqs then
                     bind (get_prop parsed "totalSize") (fun size =>
                       Normal (if truthy size then parsed
                               else getFallbackRequirementsAnalysis))
                   else Normal getFallbackRequirementsAnalysis)))
                (Normal getFallbackRequirementsAnalysis)))
        (Normal getFallbackRequirementsAnalysis)
  end.

Definition analyzeCompilationTime (dockerfileContent requirementsContent : string)
  (computeCapabilities : ComputeCapabilities) : Completion JSValue :=
  match genAI with
  | None => Normal getFallbackCompilationAnalysis
  | Some ai =>
      try_catch
        (bind (ai "gemini-2.0-flash"
                 (compilation_prompt dockerfileContent requirementsContent
                    computeCapabilities))
           (fun text =>
              let jsonText := or_else (extractJSON text) text in
              try_catch
                (bind (JSON_parse jsonText) (fun parsed =>
                 bind (get_prop parsed "totalEstimatedTime") (fun t =>
                   Normal (if truthy t then parsed
                           else getFallbackCompilationAnalysis))))
                (Normal getFallbackCompilationAnalysis)))
        (Normal getFallbackCompilationAnalysis)
  end.

End Client.

End GeminiService.

(** ** App.tsx: the handlers that write the results record *)

Module App.
Import Str JS Platform GeminiService.

(** [interface AnalysisResults]; [None] is an absent property. *)
Record AnalysisResults : Type := {
  dockerSteps : option JSValue;
  requirements : option JSValue;
  totalSize : option JSValue;
  internetSpeed : option JSNum;
  estimatedTime : option string;
  compilationAnalysis : option JSValue
}.

(** [{}], the initial state. *)
Definition no_results : AnalysisResults :=
  {| dockerSteps := None; requirements := None; totalSize := None;
     internetSpeed := None; estimatedTime := None;
     compilationAnalysis := None |}.

Definition override {A : Type} (old new : option A) : option A :=
  match new with
  | Some v => Some v
  | None => old
  end.

(** [{ ...prev, ...newResults }]: the own properties of [newResults] win. *)
Definition spread (prev newResults : AnalysisResults) : AnalysisResults :=
  {| dockerSteps := override (dockerSteps prev) (dockerSteps newResults);
     requirements := override (requirements prev) (requirements newResults);
     totalSize := override (totalSize prev) (totalSize newResults);
     internetSpeed := override (internetSpeed prev) (internetSpeed newResults);
     estimatedTime := override (estimatedTime prev) (estimatedTime newResults);
     compilationAnalysis :=
       override (compilationAnalysis prev) (compilationAnalysis newResults) |}.

(** An uploaded file: what awaiting [file.text()] gives. *)
Record File : Type := { text : Completion string }.

(** A handler ends in at most one [setResults(prev => ...)]; it is modelled
    by that function of the previous state, the identity when the handler
    does not call [setResults].  The busy flags ([isAnalyzing],
    [isTestingSpeed], [isAnalyzingCompilation]) are state cells of their
    own, outside the results record, and are left out. *)
Definition Update : Type := AnalysisResults -> AnalysisResults.

Definition no_update : Update := fun prev => prev.

Section Handlers.

Variable JSON_parse : string -> Completion JSValue.
Variable genAI : option GenerativeAI.

(** The component state the handlers read: the two files and the
    capabilities form. *)
Variable dockerFile : option File.
Variable requirementsFile : option File.
Variable computeCapabilities : ComputeCapabilities.

Definition no_file_chosen : bool :=
  match dockerFile, requirementsFile with
  | None, None => true
  | _, _ => false
  end.

Definition analyzeFiles : Update :=
  if no_file_chosen then no_update
  else
    let newResults := no_results in
    let body : Completion AnalysisResults :=
      bind
        (match dockerFile with
         | Some f =>
             bind (text f) (fun dockerContent =>
             bind (analyzeDockerfile JSON_parse genAI dockerContent)
               (fun steps =>
                  Normal {| dockerSteps := Some steps;
                            requirements := requirements newResults;
                            totalSize := totalSize newResults;
                            internetSpeed := internetSpeed newResults;
                            estimatedTime := estimatedTime newResults;
                            compilationAnalysis :=
                              compilationAnalysis newResults |}))
         | None => Normal newResults
         end)
        (fun newResults =>
           match requirementsFile with
           | Some f =>
               bind (text f) (fun requirementsContent =>
               bind (analyzeRequirements JSON_parse genAI requirementsContent)
                 (fun requirementsAnalysis =>
               bind (get_prop requirementsAnalysis "requirements") (fun r =>
               bind (get_prop requirementsAnalysis "totalSize") (fun t =>
                  Normal {| dockerSteps := dockerSteps newResults;
                            requirements := Some r;
                            totalSize := Some t;
                            internetSpeed := internetSpeed newResults;
                            estimatedTime := estimatedTime newResults;
                            compilationAnalysis :=
                              compilationAnalysis newResults |}))))
           | None => Normal newResults
           end) in
    match body with
    | Normal newResults => fun prev => spread prev newResults
    | Throw => no_update
    end.

Definition analyzeCompilation : Update :=
  if no_file_chosen then no_update
  else
    let body : Completion JSValue :=
      bind (match dockerFile with
            | Some f => text f
            | None => Normal ""
            end) (fun dockerContent =>
      bind (match requirementsFile with
            | Some f => text f
            | None => Normal ""
            end) (fun requirementsContent =>
      analyzeCompilationTime JSON_parse genAI dockerContent requirementsContent
        computeCapabilities)) in
    match body with
    | Normal analysis =>
        fun prev =>
          {| dockerSteps := dockerSteps prev;
             requirements := requirements prev;
             totalSize := totalSize prev;
             internetSpeed := internetSpeed prev;
             estimatedTime := estimatedTime prev;
             compilationAnalysis := Some analysis |}
    | Throw => no_update
    end.

End Handlers.

(** [str.replace(/[^\d.]/g, '')]: every character that is neither a decimal
    digit nor a full stop is removed. *)
Fixpoint strip_non_numeric (s : string) : string :=
  match s with
  | EmptyString => EmptyString
  | String c s' =>
      if is_digit c || Ascii.eqb c "."
      then String c (strip_non_numeric s')
      else strip_non_numeric s'
  end.

(** [const sizeInMB = parseFloat(results.totalSize.replace(/[^\d.]/g, ''))]. *)
Definition sizeInMB (totalSize : string) : JSNum :=
  parseFloat (strip_non_numeric totalSize).

(** The text of the estimate, from [timeInSeconds]. *)
Definition format_time (timeInSeconds : JSNum) : string :=
  if num_lt timeInSeconds (Fin 60)
  then number_to_string (Math_ceil timeInSeconds) ++ " seconds"
  else
    let minutes := Math_floor (num_div timeInSeconds (Fin 60)) in
    let seconds := Math_ceil (num_rem timeInSeconds (Fin 60)) in
    number_to_string minutes ++ "m " ++ number_to_string seconds ++ "s".

(** The block that computes [estimatedTime].  [results.totalSize.replace]
    is a TypeError when the value is truthy and not a string. *)
Definition estimate (size : option JSValue) (internetSpeed : JSNum)
  : Completion string :=
  match size with
  | None => Normal ""
  | Some v =>
      if truthy v then
        match v with
        | JString s =>
            let timeInSeconds :=
              num_div (num_mul (sizeInMB s) (Fin 8)) internetSpeed in
            Normal (format_time timeInSeconds)
        | _ => Throw
        end
      else Normal ""
  end.

(** [Math.round(x * 10) / 10]. *)
Definition round1 (x : JSNum) : JSNum :=
  num_div (Math_round (num_mul x (Fin 10))) (Fin 10).

(** What one run of the speed test meets: whether the awaited [fetch]
    fulfils, the two readings of [Date.now()] in milliseconds, and the value
    of [Math.random()].  [fetched] is [Throw] when the promise is rejected
    (a network error) and [Normal tt] when it is fulfilled, whatever the
    status of the response: the handler never reads the response. *)
Record Run : Type := {
  fetched : Completion unit;
  startTime : Z;
  endTime : Z;
  random : Q
}.

(** [results] is the state the handler closed over. *)
Definition testInternetSpeed (results : AnalysisResults) (run : Run) : Update :=
  let body : Completion (JSNum * string) :=
    bind (fetched run) (fun _ =>
      let duration :=
        num_div (num_sub (Fin (inject_Z (endTime run)))
                   (Fin (inject_Z (startTime run))))
          (Fin 1000) in
      let speed := num_mul (num_div (Fin 1) duration) (Fin 8) in
      let internetSpeed := Math_max speed (Fin 1) in
      bind (estimate (totalSize results) internetSpeed) (fun estimatedTime =>
        Normal (internetSpeed, estimatedTime))) in
  match body with
  | Normal (speed, time) =>
      fun prev =>
        {| dockerSteps := dockerSteps prev;
           requirements := requirements prev;
           totalSize := totalSize prev;
           internetSpeed := Some (round1 speed);
           estimatedTime := Some time;
           compilationAnalysis := compilationAnalysis prev |}
  | Throw =>
      let simulatedSpeed :=
        num_add (Fin 25) (num_mul (Fin (random run)) (Fin 50)) in
      fun prev =>
        {| dockerSteps := dockerSteps prev;
           requirements := requirements prev;
           totalSize := totalSize prev;
           internetSpeed := Some (round1 simulatedSpeed);
           estimatedTime := estimatedTime prev;
           compilationAnalysis := compilationAnalysis prev |}
  end.

End App.

(** ** Vocabulary of the statements *)

Module Spec.
Import Str JS Regex GeminiService App.

(** [v] is an object that has the property [key]. *)
Definition carries (v : JSValue) (key : string) : bool :=
  match v with
  | JObject fields =>
      match lookup key fields with
      | Some _ => true
      | None => false
      end
  | _ => false
  end.

(** [v.key] can be read and is truthy. *)
Definition truthy_field (v : JSValue) (key : string) : bool :=
  match get_prop v key with
  | Normal x => truthy x
  | Throw => false
  end.

(** The text handed to [JSON.parse] for a response [text]. *)
Definition json_text (text : string) : string :=
  or_else (Extract.extractJSON text) text.

Definition model_name : string := "gemini-2.0-flash".

(** [p] occurs in [s] between [pre] and [post], and nowhere further left:
    no other way of writing [s] around [p] has a shorter left part. *)
Definition first_split (p s pre post : string) : Prop :=
  s = pre ++ p ++ post /\
  forall pre' post',
    s = pre' ++ p ++ post' -> (String.length pre <= String.length pre')%nat.

(** [s] contains a fenced block labelled json: the opening fence and,
    after it, a closing fence. *)
Definition has_fenced_block (s : string) : Prop :=
  exists pre body post, s = pre ++ fence_open ++ body ++ fence_close ++ post.

(** [body] is the interior of the first such block: what lies between the
    first opening fence and the first closing fence after it. *)
Definition first_fenced_interior (s body : string) : Prop :=
  exists pre rest post,
    first_split fence_open s pre rest /\ first_split fence_close rest body post.

(** [s] contains an opening brace and, later, a closing brace. *)
Definition has_brace_span (s : string) : Prop :=
  exists pre mid post, s = pre ++ "{" ++ mid ++ "}" ++ post.

(** [m] is the part of [s] from its first opening brace to its last closing
    brace. *)
Definition first_to_last_brace (s m : string) : Prop :=
  exists pre mid post,
    s = pre ++ m ++ post /\ m = "{" ++ mid ++ "}" /\
    contains_char "{" pre = false /\ contains_char "}" post = false.

(** The opening fence occurs somewhere in [s]. *)
Definition mentions_fence_open (s : string) : Prop :=
  exists pre post, s = pre ++ fence_open ++ post.

(** A character of a numeric component: a decimal digit or a full stop. *)
Definition is_numeric (c : ascii) : bool :=
  Platform.is_digit c || Ascii.eqb c ".".

Fixpoint all_numeric (s : string) : bool :=
  match s with
  | EmptyString => true
  | String c s' => is_numeric c && all_numeric s'
  end.

Fixpoint no_numeric (s : string) : bool :=
  match s with
  | EmptyString => true
  | String c s' => negb (is_numeric c) && no_numeric s'
  end.

Fixpoint take_numeric (s : string) : string :=
  match s with
  | EmptyString => EmptyString
  | String c s' => if is_numeric c then String c (take_numeric s') else EmptyString
  end.

(** The leading numeric component of [s], in the words of the
    specification: the first run of digits and decimal point. *)
Fixpoint leading_numeric_component (s : string) : string :=
  match s with
  | EmptyString => EmptyString
  | String c s' =>
      if is_numeric c then take_numeric s else leading_numeric_component s'
  end.

(** A text cut into stretches without numeric characters, each followed by
    a run of numeric characters. *)
Fixpoint interleave (parts : list (string * string)) : string :=
  match parts with
  | [] => EmptyString
  | (gap, run) :: rest => gap ++ run ++ interleave rest
  end.

Fixpoint runs (parts : list (string * string)) : string :=
  match parts with
  | [] => EmptyString
  | (_, run) :: rest => run ++ runs rest
  end.

Fixpoint well_cut (parts : list (string * string)) : bool :=
  match parts with
  | [] => true
  | (gap, run) :: rest => no_numeric gap && all_numeric run && well_cut rest
  end.

(** [a === b] on numbers. *)
Definition num_eqb (a b : JSNum) : bool :=
  match a, b with
  | Fin x, Fin y => Qeq_bool x y
  | PosInf, PosInf | NegInf, NegInf => true
  | _, _ => false
  end.

End Spec.

(** ** Inputs of the closed examples *)

Module Examples.
Import Str JS GeminiService App.

(** A response that carries both properties, [totalSize] being the empty
    string. *)
Definition empty_total_response : string :=
  "{" ++ quoted "requirements" ++ ": [], " ++ quoted "totalSize" ++ ": "
  ++ quoted "" ++ "}".

(** A well-shaped response inside a fenced block. *)
Definition shaped_response : string :=
  "Here you go:" ++ nl ++ "```json" ++ nl
  ++ "{" ++ quoted "requirements" ++ ": [{" ++ quoted "package" ++ ": "
  ++ quoted "flask==2.3.3" ++ "}], " ++ quoted "totalSize" ++ ": "
  ++ quoted "2.1 MB" ++ "}" ++ nl ++ "```".

Definition default_capabilities : ComputeCapabilities :=
  {| cpu := medium; memory := medium; architecture := x86_64;
     environment := local |}.

(** A results record that holds a total size and an estimate made by an
    earlier run. *)
Definition results_with (size : string) (earlier : option string)
  : AnalysisResults :=
  {| dockerSteps := None; requirements := None;
     totalSize := Some (JString size);
     internetSpeed := None; estimatedTime := earlier;
     compilationAnalysis := None |}.

(** A run whose fetch fulfils after [ms] milliseconds. *)
Definition measured_run (ms : Z) : Run :=
  {| fetched := Normal tt; startTime := 1000; endTime := 1000 + ms;
     random := 0 |}.

(** A run whose fetch is rejected, [Math.random()] giving [r]. *)
Definition failed_run (r : Q) : Run :=
  {| fetched := Throw; startTime := 1000; endTime := 1000; random := r |}.


Definition two_blocks_text : string :=
  "A: ```json {a} ``` B: ```json {b} ```".

Definition uppercase_fence_text : string :=
  "```JSON" ++ nl ++ "{a}" ++ nl ++ "```".

Definition unlabelled_fence_text : string :=
  "```" ++ nl ++ "{a}" ++ nl ++ "```".

(** A fence whose label is json5. *)
Definition json5_fence_text : string :=
  "```json5" ++ nl ++ "{a}" ++ nl ++ "```".

End Examples.

(** ** ComputeCapabilitiesForm.tsx: updateCapability *)

Module ComputeCapabilitiesForm.
Import GeminiService.

(** [keyof ComputeCapabilities]. *)
Inductive CapabilityKey : Type :=
| key_cpu
| key_memory
| key_architecture
| key_environment.

(** [ComputeCapabilities[K]]. *)
Definition CapabilityValue (key : CapabilityKey) : Type :=
  match key with
  | key_cpu | key_memory => Tier
  | key_architecture => Architecture
  | key_environment => Environment
  end.

(** [updateCapability(key, value)] hands [{ ...capabilities, [key]: value }]
    to [onChange], which is the setter of the capabilities state; the
    result is that record. *)
Definition updateCapability (capabilities : ComputeCapabilities)
  (key : CapabilityKey) : CapabilityValue key -> ComputeCapabilities :=
  match key as k return CapabilityValue k -> ComputeCapabilities with
  | key_cpu => fun value =>
      {| cpu := value; memory := memory capabilities;
         architecture := architecture capabilities;
         environment := environment capabilities |}
  | key_memory => fun value =>
      {| cpu := cpu capabilities; memory := value;
         architecture := architecture capabilities;
         environment := environment capabilities |}
  | key_architecture => fun value =>
      {| cpu := cpu capabilities; memory := memory capabilities;
         architecture := value;
         environment := environment capabilities |}
  | key_environment => fun value =>
      {| cpu := cpu capabilities; memory := memory capabilities;
         architecture := architecture capabilities;
         environment := value |}
  end.

End ComputeCapabilitiesForm.

(** ** Further vocabulary *)

Module Derived.
Import Str JS Regex GeminiService App Spec.

Definition is_string (v : JSValue) : bool :=
  match v with
  | JString _ => true
  | _ => false
  end.

(** [P] holds of the value of an optional field, if there is one. *)
Definition optional {A : Type} (P : A -> bool) (o : option A) : bool :=
  match o with
  | Some a => P a
  | None => true
  end.

Definition present {A : Type} (o : option A) : bool :=
  match o with
  | Some _ => true
  | None => false
  end.

(** The stored total size does not make [results.totalSize.replace] fail:
    it is absent, falsy, or a string. *)
Definition size_is_usable (results : AnalysisResults) : bool :=
  optional (fun v => negb (truthy v) || is_string v) (totalSize results).

(** What the display relies on: [dockerSteps] is an array; [requirements]
    and [totalSize] are stored together and truthy; the speed is at least
    1; the compilation analysis has a truthy [totalEstimatedTime]. *)
Definition results_ok (r : AnalysisResults) : bool :=
  optional Array_isArray (dockerSteps r)
  && optional truthy (requirements r)
  && optional truthy (totalSize r)
  && Bool.eqb (present (requirements r)) (present (totalSize r))
  && optional (num_le (Fin 1)) (internetSpeed r)
  && optional (fun v => truthy_field v "totalEstimatedTime")
       (compilationAnalysis r).

(** [part] is a contiguous part of [s]. *)
Definition part_of (part s : string) : Prop :=
  exists before after, s = before ++ part ++ after.

(** The text that separates the two file contents in the compilation
    prompt. *)
Definition requirements_heading : string :=
  "
    
    REQUIREMENTS:
    ".

End Derived.

(** ** Further inputs of closed examples *)

Module MoreExamples.
Import Str JS GeminiService App.

(** An array of two objects, without a fence. *)
Definition bare_array_response : string :=
  "[{" ++ quoted "instruction" ++ ":" ++ quoted "FROM node" ++ "},{"
  ++ quoted "instruction" ++ ":" ++ quoted "RUN make" ++ "}]".

(** The same array inside a fenced block. *)
Definition fenced_array_response : string :=
  "```json" ++ nl ++ bare_array_response ++ nl ++ "```".


(** A manifest analysis whose [totalSize] is a number. *)
Definition numeric_total_response : string :=
  "{" ++ quoted "requirements" ++ ": [1], " ++ quoted "totalSize"
  ++ ": 51}".

Definition compilation_response : string :=
  "{" ++ quoted "totalEstimatedTime" ++ ": " ++ quoted "3 minutes" ++ "}".

Definition answering (text : string) : GenerativeAI :=
  fun _ _ => Normal text.

Definition readable (content : string) : File := {| text := Normal content |}.

Definition unreadable : File := {| text := Throw |}.

End MoreExamples.

(** * Properties *)

Module Properties.
Import Str JS Regex Extract Platform GeminiService App Spec Examples.

(** ** The analysis operations *)

Section ClientProperties.

Variable JSON_parse : string -> Completion JSValue.

(** C1. Without a configured credential ([genAI] is [null]) each of the
    three analysis operations returns exactly its static fallback value,
    whatever the input text and the capabilities record, so any two calls
    return equal results. *)
Theorem no_credential_gives_fallback :
  (forall d, analyzeDockerfile JSON_parse None d
             = Normal getFallbackDockerAnalysis) /\
  (forall r, analyzeRequirements JSON_parse None r
             = Normal getFallbackRequirementsAnalysis) /\
  (forall d r c, analyzeCompilationTime JSON_parse None d r c
                 = Normal getFallbackCompilationAnalysis) /\
  (forall d d', analyzeDockerfile JSON_parse None d
                = analyzeDockerfile JSON_parse None d') /\
  (forall r r', analyzeRequirements JSON_parse None r
                = analyzeRequirements JSON_parse None r') /\
  (forall d r c d' r' c', analyzeCompilationTime JSON_parse None d r c
                          = analyzeCompilationTime JSON_parse None d' r' c').
Proof.
  repeat split; intros; reflexivity.
Qed.

Variable ai : GenerativeAI.

Lemma dockerfile_outcome (d : string) :
  analyzeDockerfile JSON_parse (Some ai) d = Normal getFallbackDockerAnalysis \/
  exists text parsed,
    ai model_name (dockerfile_prompt d) = Normal text /\
    JSON_parse (json_text text) = Normal parsed /\
    Array_isArray parsed = true /\
    analyzeDockerfile JSON_parse (Some ai) d = Normal parsed.
Proof.
  unfold analyzeDockerfile, json_text, model_name.
  destruct (ai "gemini-2.0-flash" (dockerfile_prompt d)) as [text|] eqn:Hai;
    simpl; [|now left].
  destruct (JSON_parse (or_else (extractJSON text) text)) as [parsed|] eqn:Hp;
    simpl; [|now left].
  destruct (Array_isArray parsed) eqn:Harr; [|now left].
  right. exists text, parsed. auto.
Qed.

Lemma requirements_outcome (r : string) :
  analyzeRequirements JSON_parse (Some ai) r
  = Normal getFallbackRequirementsAnalysis \/
  exists text parsed,
    ai model_name (requirements_prompt r) = Normal text /\
    JSON_parse (json_text text) = Normal parsed /\
    truthy_field parsed "requirements" = true /\
    truthy_field parsed "totalSize" = true /\
    analyzeRequirements JSON_parse (Some ai) r = Normal parsed.
Proof.
  unfold analyzeRequirements, json_text, model_name, truthy_field.
  destruct (ai "gemini-2.0-flash" (requirements_prompt r)) as [text|] eqn:Hai;
    simpl; [|now left].
  destruct (JSON_parse (or_else (extractJSON text) text)) as [parsed|] eqn:Hp;
    simpl; [|now left].
  destruct (get_prop parsed "requirements") as [reqs|] eqn:Hr;
    simpl; [|now left].
  destruct (truthy reqs) eqn:Htr; simpl; [|now left].
  destruct (get_prop parsed "totalSize") as [size|] eqn:Hs;
    simpl; [|now left].
  destruct (truthy size) eqn:Hts; [|now left].
  right. exists text, parsed. rewrite Hr, Hs. auto.
Qed.

Lemma compilation_outcome (d r : string) (c : ComputeCapabilities) :
  analyzeCompilationTime JSON_parse (Some ai) d r c
  = Normal getFallbackCompilationAnalysis \/
  exists text parsed,
    ai model_name (compilation_prompt d r c) = Normal text /\
    JSON_parse (json_text text) = Normal parsed /\
    truthy_field parsed "totalEstimatedTime" = true /\
    analyzeCompilationTime JSON_parse (Some ai) d r c = Normal parsed.
Proof.
  unfold analyzeCompilationTime, json_text, model_name, truthy_field.
  destruct (ai "gemini-2.0-flash" (compilation_prompt d r c)) as [text|] eqn:Hai;
    simpl; [|now left].
  destruct (JSON_parse (or_else (extractJSON text) text)) as [parsed|] eqn:Hp;
    simpl; [|now left].
  destruct (get_prop parsed "totalEstimatedTime") as [t|] eqn:Ht;
    simpl; [|now left].
  destruct (truthy t) eqn:Htt; [|now left].
  right. exists text, parsed. rewrite Ht. auto.
Qed.

Lemma carries_false_not_truthy (v : JSValue) (key : string) :
  carries v key = false -> truthy_field v key = false.
Proof.
  unfold carries, truthy_field, get_prop.
  destruct v; try reflexivity.
  destruct (lookup key fields); [discriminate | reflexivity].
Qed.

(** C5. With a credential configured, whatever the remote capability does,
    no exception escapes any of the three analysis operations: each returns
    a value.  When the remote call raises an error (transport failure or
    any other), and when the text handed to [JSON.parse] does not parse,
    that value is the operation's static fallback. *)
Theorem failures_yield_fallback (d r : string) (c : ComputeCapabilities) :
  ((exists v, analyzeDockerfile JSON_parse (Some ai) d = Normal v) /\
   (exists v, analyzeRequirements JSON_parse (Some ai) r = Normal v) /\
   (exists v, analyzeCompilationTime JSON_parse (Some ai) d r c = Normal v)) /\
  ((ai model_name (dockerfile_prompt d) = Throw ->
    analyzeDockerfile JSON_parse (Some ai) d
    = Normal getFallbackDockerAnalysis) /\
   (ai model_name (requirements_prompt r) = Throw ->
    analyzeRequirements JSON_parse (Some ai) r
    = Normal getFallbackRequirementsAnalysis) /\
   (ai model_name (compilation_prompt d r c) = Throw ->
    analyzeCompilationTime JSON_parse (Some ai) d r c
    = Normal getFallbackCompilationAnalysis)) /\
  ((forall text,
      ai model_name (dockerfile_prompt d) = Normal text ->
      JSON_parse (json_text text) = Throw ->
      analyzeDockerfile JSON_parse (Some ai) d
      = Normal getFallbackDockerAnalysis) /\
   (forall text,
      ai model_name (requirements_prompt r) = Normal text ->
      JSON_parse (json_text text) = Throw ->
      analyzeRequirements JSON_parse (Some ai) r
      = Normal getFallbackRequirementsAnalysis) /\
   (forall text,
      ai model_name (compilation_prompt d r c) = Normal text ->
      JSON_parse (json_text text) = Throw ->
      analyzeCompilationTime JSON_parse (Some ai) d r c
      = Normal getFallbackCompilationAnalysis)).
Proof.
  split; [|split].
  - split; [|split].
    + destruct (dockerfile_outcome d) as [H | (t & p & _ & _ & _ & H)];
        rewrite H; eauto.
    + destruct (requirements_outcome r) as [H | (t & p & _ & _ & _ & _ & H)];
        rewrite H; eauto.
    + destruct (compilation_outcome d r c) as [H | (t & p & _ & _ & _ & H)];
        rewrite H; eauto.
  - unfold analyzeDockerfile, analyzeRequirements, analyzeCompilationTime,
      model_name.
    repeat split; intros H; rewrite H; reflexivity.
  - unfold analyzeDockerfile, analyzeRequirements, analyzeCompilationTime,
      model_name, json_text.
    repeat split; intros text H Hp; rewrite H; simpl; rewrite Hp; reflexivity.
Qed.

(** C4, as amended.  When the text handed to [JSON.parse] parses to a value
    whose [requirements] and [totalSize] properties are both truthy,
    [analyzeRequirements] returns that very value; when either property is
    missing, and more generally when either is falsy, it returns the static
    fallback. *)
Theorem requirements_shape_check (r text : string) (parsed : JSValue) :
  ai model_name (requirements_prompt r) = Normal text ->
  JSON_parse (json_text text) = Normal parsed ->
  (truthy_field parsed "requirements" = true ->
   truthy_field parsed "totalSize" = true ->
   analyzeRequirements JSON_parse (Some ai) r = Normal parsed) /\
  (carries parsed "requirements" = false \/ carries parsed "totalSize" = false ->
   analyzeRequirements JSON_parse (Some ai) r
   = Normal getFallbackRequirementsAnalysis) /\
  (truthy_field parsed "requirements" = false \/
   truthy_field parsed "totalSize" = false ->
   analyzeRequirements JSON_parse (Some ai) r
   = Normal getFallbackRequirementsAnalysis).
Proof.
  intros Hai Hp.
  assert (Hfalsy : truthy_field parsed "requirements" = false \/
                   truthy_field parsed "totalSize" = false ->
                   analyzeRequirements JSON_parse (Some ai) r
                   = Normal getFallbackRequirementsAnalysis).
  { unfold analyzeRequirements, truthy_field.
    unfold model_name in Hai. unfold json_text in Hp.
    rewrite Hai; simpl. rewrite Hp; simpl.
    destruct (get_prop parsed "requirements") as [reqs|]; simpl;
      [|reflexivity].
    destruct (truthy reqs); simpl; [|reflexivity].
    destruct (get_prop parsed "totalSize") as [size|]; simpl; [|reflexivity].
    destruct (truthy size); [|reflexivity].
    intros [H | H]; discriminate. }
  split; [|split].
  - unfold analyzeRequirements, truthy_field.
    unfold model_name in Hai. unfold json_text in Hp.
    rewrite Hai; simpl. rewrite Hp; simpl.
    destruct (get_prop parsed "requirements") as [reqs|]; simpl;
      [|discriminate].
    intros ->; simpl.
    destruct (get_prop parsed "totalSize") as [size|]; simpl; [|discriminate].
    intros ->; reflexivity.
  - intros [H | H]; apply Hfalsy;
      [left | right]; now apply carries_false_not_truthy.
  - exact Hfalsy.
Qed.

End ClientProperties.

Lemma failures_yield_fallback_witness :
  analyzeDockerfile Platform.JSON_parse (Some (fun _ _ => Throw)) "FROM node:20"
  = Normal getFallbackDockerAnalysis /\
  analyzeRequirements Platform.JSON_parse
    (Some (fun _ _ => Normal "no JSON here")) "flask"
  = Normal getFallbackRequirementsAnalysis.
Proof.
  split.
  - destruct (failures_yield_fallback Platform.JSON_parse (fun _ _ => Throw)
                "FROM node:20" "flask" default_capabilities)
      as (_ & (H & _) & _).
    apply H. reflexivity.
  - destruct (failures_yield_fallback Platform.JSON_parse
                (fun _ _ => Normal "no JSON here")
                "FROM node:20" "flask" default_capabilities)
      as (_ & _ & (_ & H & _)).
    apply (H "no JSON here"); reflexivity.
Defined.

Lemma requirements_shape_check_witness :
  analyzeRequirements Platform.JSON_parse (Some (fun _ _ => Normal shaped_response))
    "flask==2.3.3"
  = Normal (JObject
              [ ("requirements",
                 JArray [ JObject [ ("package", JString "flask==2.3.3") ] ]);
                ("totalSize", JString "2.1 MB") ]).
Proof.
  apply (requirements_shape_check Platform.JSON_parse
           (fun _ _ => Normal shaped_response) "flask==2.3.3" shaped_response).
  - reflexivity.
  - vm_compute. reflexivity.
  - vm_compute. reflexivity.
  - vm_compute. reflexivity.
Defined.

(** C4, as stated, fails: [empty_total_response] parses to a value that
    carries both properties, [totalSize] being the empty string, and the
    operation returns the fallback, not the parsed value. *)
Lemma both_fields_present_yet_fallback :
  exists parsed,
    Platform.JSON_parse (json_text empty_total_response) = Normal parsed /\
    carries parsed "requirements" = true /\
    carries parsed "totalSize" = true /\
    analyzeRequirements Platform.JSON_parse
      (Some (fun _ _ => Normal empty_total_response)) "flask"
    = Normal getFallbackRequirementsAnalysis /\
    getFallbackRequirementsAnalysis <> parsed.
Proof.
  exists (JObject [("requirements", JArray []); ("totalSize", JString "")]).
  repeat split; try (vm_compute; reflexivity).
  vm_compute. discriminate.
Qed.

(** ** The handlers *)

(** C9. Each handler leaves every field that is not its own as it was in
    the previous state: the speed test changes at most [internetSpeed] and
    [estimatedTime], the file analysis at most [dockerSteps], [requirements]
    and [totalSize], the compilation analysis at most
    [compilationAnalysis]. *)
Theorem handlers_write_own_fields
  (JSON_parse : string -> Completion JSValue) (genAI : option GenerativeAI)
  (dockerFile requirementsFile : option File) (caps : ComputeCapabilities)
  (results prev : AnalysisResults) (run : Run) :
  (let next := testInternetSpeed results run prev in
   dockerSteps next = dockerSteps prev /\
   requirements next = requirements prev /\
   totalSize next = totalSize prev /\
   compilationAnalysis next = compilationAnalysis prev) /\
  (let next := analyzeFiles JSON_parse genAI dockerFile requirementsFile prev in
   internetSpeed next = internetSpeed prev /\
   estimatedTime next = estimatedTime prev /\
   compilationAnalysis next = compilationAnalysis prev) /\
  (let next :=
     analyzeCompilation JSON_parse genAI dockerFile requirementsFile caps prev in
   dockerSteps next = dockerSteps prev /\
   requirements next = requirements prev /\
   totalSize next = totalSize prev /\
   internetSpeed next = internetSpeed prev /\
   estimatedTime next = estimatedTime prev).
Proof.
  split; [|split].
  - unfold testInternetSpeed.
    match goal with
    | |- context [match ?b with Normal _ => _ | Throw => _ end] =>
        destruct b as [[speed time]|]
    end; simpl; auto.
  - unfold analyzeFiles.
    destruct no_file_chosen; [simpl; auto|].
    match goal with
    | |- context [match ?b with Normal _ => _ | Throw => _ end] =>
        assert (Hframe : forall n, b = Normal n ->
                  internetSpeed n = None /\ estimatedTime n = None /\
                  compilationAnalysis n = None);
        [|destruct b as [n|]]
    end.
    + intros n.
      destruct dockerFile as [[[dockerContent|]]|]; simpl; try discriminate;
        [destruct (analyzeDockerfile JSON_parse genAI dockerContent)
           as [steps|]; simpl; try discriminate|];
        (destruct requirementsFile as [[[requirementsContent|]]|]; simpl;
         try discriminate;
         [destruct (analyzeRequirements JSON_parse genAI requirementsContent)
            as [analysis|]; simpl; try discriminate;
          destruct (get_prop analysis "requirements"); simpl;
          try discriminate;
          destruct (get_prop analysis "totalSize"); simpl; try discriminate|]);
        intros H; injection H as <-; simpl; auto.
    + destruct (Hframe n eq_refl) as (H1 & H2 & H3).
      simpl. rewrite H1, H2, H3. simpl. auto.
    + simpl; auto.
  - unfold analyzeCompilation.
    destruct no_file_chosen; [simpl; auto|].
    match goal with
    | |- context [match ?b with Normal _ => _ | Throw => _ end] =>
        destruct b
    end; simpl; auto.
Qed.

(** Facts on the numbers. *)


Lemma Qltb_false (x y : Q) : Qltb x y = false <-> y <= x.
Proof.
  unfold Qltb. rewrite negb_false_iff. apply Qle_bool_iff.
Qed.

(** Rounding a rational to one decimal place keeps it between two tenths
    that enclose it. *)
Lemma round1_between (x : Q) (lo hi : Z) :
  inject_Z lo <= x * 10 -> x * 10 <= inject_Z hi ->
  exists q, round1 (Fin x) = Fin q /\
            inject_Z lo / 10 <= q /\ q <= inject_Z hi / 10.
Proof.
  intros Hlo Hhi.
  exists (inject_Z (Qfloor (x * 10 + (1 # 2))) / 10).
  split.
  - unfold round1. simpl. reflexivity.
  - assert (Hl : (lo <= Qfloor (x * 10 + (1 # 2)))%Z).
    { rewrite <- (Qfloor_Z lo). apply Qfloor_resp_le. lra. }
    assert (Hh : (Qfloor (x * 10 + (1 # 2)) <= hi)%Z).
    { assert (H := Qfloor_le (x * 10 + (1 # 2))).
      assert (Hz : inject_Z (Qfloor (x * 10 + (1 # 2))) < inject_Z (hi + 1)).
      { rewrite inject_Z_plus. change (inject_Z 1) with 1%Q. lra. }
      rewrite <- Zlt_Qlt in Hz. lia. }
    rewrite Zle_Qle in Hl, Hh.
    split; apply Qle_shift_div_l; try lra;
      unfold Qdiv; rewrite <- Qmult_assoc;
      rewrite (Qmult_comm (/ 10)); rewrite Qmult_inv_r by lra; lra.
Qed.

Lemma round1_at_least_1 (x : JSNum) :
  num_le (Fin 1) x = true -> num_le (Fin 1) (round1 x) = true.
Proof.
  destruct x as [| | |q]; intros H;
    [discriminate H | reflexivity | discriminate H |].
  apply Qle_bool_iff in H.
  destruct (round1_between q 10 (Qceiling (q * 10))) as (v & Hv & Hlo & _).
  - change (inject_Z 10) with 10%Q. lra.
  - apply Qle_ceiling.
  - rewrite Hv. simpl. apply Qle_bool_iff.
    assert (E : inject_Z 10 / 10 == 1) by reflexivity. lra.
Qed.

Lemma max_with_1 (x : JSNum) :
  x <> NaN -> num_le (Fin 1) (Math_max x (Fin 1)) = true.
Proof.
  destruct x as [| | |q]; simpl; try reflexivity; [congruence|].
  intros _. destruct (Qltb q 1) eqn:E; simpl.
  - reflexivity.
  - apply Qle_bool_iff. now apply Qltb_false in E.
Qed.

(** The measured speed is a number: finite, or +Infinity when the two
    readings of the clock coincide. *)
Lemma measured_speed_not_NaN (a b : Z) :
  num_mul
    (num_div (Fin 1)
       (num_div (num_sub (Fin (inject_Z b)) (Fin (inject_Z a))) (Fin 1000)))
    (Fin 8) <> NaN.
Proof.
  simpl.
  destruct (Qeq_bool ((inject_Z b + - inject_Z a) / 1000) 0); simpl;
    discriminate.
Qed.

(** The value the speed test stores is the rounding of the floored
    measurement or of the simulated speed. *)
Lemma stored_speed (results prev : AnalysisResults) (run : Run) :
  (exists x, num_le (Fin 1) x = true /\ fetched run = Normal tt /\
             internetSpeed (testInternetSpeed results run prev)
             = Some (round1 x)) \/
  internetSpeed (testInternetSpeed results run prev)
  = Some (round1 (Fin (25 + random run * 50))).
Proof.
  unfold testInternetSpeed.
  destruct (fetched run) as [[]|] eqn:Hf; simpl; [|now right].
  destruct (estimate (totalSize results) _) as [t|]; simpl; [|now right].
  left. eexists. split; [|split; reflexivity].
  apply max_with_1. apply measured_speed_not_NaN.
Qed.

(** C6, as amended.  Given that [Math.random()] is in [0, 1), every run of
    the speed test stores a throughput, rounded to one decimal place, that
    is at least 1; in every run in which the promise returned by [fetch] is
    rejected the stored value lies in the closed interval from 25 to 75. *)
Theorem throughput_bounds (results prev : AnalysisResults) (run : Run) :
  0 <= random run < 1 ->
  exists v,
    internetSpeed (testInternetSpeed results run prev) = Some v /\
    num_le (Fin 1) v = true /\
    (fetched run = Throw ->
     num_le (Fin 25) v = true /\ num_le v (Fin 75) = true).
Proof.
  intros [H0 H1].
  assert (Hsim : exists q, round1 (Fin (25 + random run * 50)) = Fin q /\
                           25 <= q /\ q <= 75).
  { destruct (round1_between (25 + random run * 50) 250 750)
      as (q & Hq & Hlo & Hhi).
    - change (inject_Z 250) with 250%Q. lra.
    - change (inject_Z 750) with 750%Q. lra.
    - exists q. split; [exact Hq|].
      assert (E1 : inject_Z 250 / 10 == 25) by reflexivity.
      assert (E2 : inject_Z 750 / 10 == 75) by reflexivity.
      lra. }
  destruct Hsim as (q & Hq & Hlo & Hhi).
  destruct (stored_speed results prev run) as [(x & Hx & Hf & Hs) | Hs].
  - exists (round1 x). split; [exact Hs|]. split.
    + now apply round1_at_least_1.
    + rewrite Hf. discriminate.
  - exists (Fin q). rewrite Hs, Hq. split; [reflexivity|].
    simpl. split; [|intros _; split]; apply Qle_bool_iff; lra.
Qed.

Lemma throughput_bounds_witness :
  exists v,
    internetSpeed
      (testInternetSpeed (results_with "51.0 MB" None) (failed_run (1 # 3))
         no_results) = Some v /\
    num_le (Fin 1) v = true /\
    num_le (Fin 25) v = true /\ num_le v (Fin 75) = true.
Proof.
  destruct (throughput_bounds (results_with "51.0 MB" None) no_results
              (failed_run (1 # 3))) as (v & Hv & H1 & H2).
  - simpl. split; [discriminate | reflexivity].
  - exists v. split; [exact Hv|]. split; [exact H1|].
    apply H2. reflexivity.
Defined.

(** The values met on the way to the counterexample below are dyadic
    rationals with small numerators, so binary64 arithmetic computes them
    without rounding. *)
Lemma simulated_speed_steps_are_dyadic :
  (4095 # 4096) * 50 == 204750 # 4096 /\
  25 + (4095 # 4096) * 50 == 307150 # 4096 /\
  (25 + (4095 # 4096) * 50) * 10 == 3071500 # 4096 /\
  Qfloor ((25 + (4095 # 4096) * 50) * 10 + (1 # 2)) = 750%Z.
Proof. repeat split. Qed.

(** C6, as stated, fails.  With [Math.random()] at 4095/4096 the simulated
    speed is 74.98779296875, which rounds to 75.0, outside [25, 75).  And
    the only failed fetch the handler sees is a rejected promise: a
    response with a non-success status fulfils the promise, so when it
    arrives after 8 milliseconds the run is measured and stores 1000. *)
Lemma simulated_speed_reaches_75 :
  (0 <= 4095 # 4096 < 1 /\
   exists v,
     internetSpeed
       (testInternetSpeed no_results (failed_run (4095 # 4096)) no_results)
     = Some v /\
     num_le (Fin 75) v = true /\
     num_lt v (Fin 75) = false) /\
  (exists v,
     internetSpeed
       (testInternetSpeed no_results (measured_run 8) no_results) = Some v /\
     num_eqb v (Fin 1000) = true /\
     num_lt v (Fin 75) = false).
Proof.
  split; [split|].
  - split; [discriminate | reflexivity].
  - eexists. split; [reflexivity|]. split; reflexivity.
  - eexists. split; [reflexivity|]. split; reflexivity.
Qed.

(** C3: what the code does.  When the fetch fulfils and the stored total
    size is a non-empty string in which [parseFloat] finds no number once
    the non-numeric characters are removed, the speed test stores the text
    [NaNm NaNs] as the estimate instead of leaving the estimate out. *)
Theorem unparseable_size_prints_NaN
  (results prev : AnalysisResults) (run : Run) (s : string) :
  fetched run = Normal tt ->
  totalSize results = Some (JString s) ->
  s <> "" ->
  sizeInMB s = NaN ->
  estimatedTime (testInternetSpeed results run prev) = Some "NaNm NaNs".
Proof.
  intros Hf Ht Hs Hn.
  unfold testInternetSpeed, estimate.
  rewrite Hf, Ht. simpl.
  destruct (String.eqb s "") eqn:E.
  - apply String.eqb_eq in E. contradiction.
  - simpl. rewrite Hn. reflexivity.
Qed.

Lemma unparseable_size_prints_NaN_witness :
  estimatedTime
    (testInternetSpeed (results_with "unknown" None) (measured_run 800)
       no_results)
  = Some "NaNm NaNs".
Proof.
  apply (unparseable_size_prints_NaN (results_with "unknown" None) no_results
           (measured_run 800) "unknown").
  - reflexivity.
  - reflexivity.
  - discriminate.
  - reflexivity.
Defined.

(** C7: what the code does.  In a run whose fetch fails the speed test
    computes no estimate: the stored [estimatedTime] is the one of the
    previous state, whatever total size is available, while the stored
    speed is the new simulated one. *)
Theorem failed_fetch_keeps_old_estimate
  (results prev : AnalysisResults) (run : Run) :
  fetched run = Throw ->
  estimatedTime (testInternetSpeed results run prev) = estimatedTime prev /\
  internetSpeed (testInternetSpeed results run prev)
  = Some (round1 (num_add (Fin 25) (num_mul (Fin (random run)) (Fin 50)))).
Proof.
  intros Hf. unfold testInternetSpeed. rewrite Hf. simpl. split; reflexivity.
Qed.

Lemma failed_fetch_keeps_old_estimate_witness :
  estimatedTime
    (testInternetSpeed (results_with "51.0 MB" None) (failed_run (1 # 2))
       (results_with "51.0 MB" None)) = None /\
  estimatedTime
    (testInternetSpeed (results_with "51.0 MB" (Some "41 seconds"))
       (failed_run (1 # 2)) (results_with "51.0 MB" (Some "41 seconds")))
  = Some "41 seconds".
Proof.
  split.
  - apply (failed_fetch_keeps_old_estimate (results_with "51.0 MB" None)
             (results_with "51.0 MB" None) (failed_run (1 # 2))).
    reflexivity.
  - apply (failed_fetch_keeps_old_estimate
             (results_with "51.0 MB" (Some "41 seconds"))
             (results_with "51.0 MB" (Some "41 seconds"))
             (failed_run (1 # 2))).
    reflexivity.
Defined.

(** The measured path, for comparison: with a non-empty size string the
    estimate is computed and stored. *)
Lemma measured_run_stores_estimate
  (results prev : AnalysisResults) (run : Run) (s : string) :
  fetched run = Normal tt ->
  totalSize results = Some (JString s) ->
  s <> "" ->
  exists speed,
    internetSpeed (testInternetSpeed results run prev) = Some (round1 speed) /\
    estimatedTime (testInternetSpeed results run prev)
    = Some (format_time (num_div (num_mul (sizeInMB s) (Fin 8)) speed)).
Proof.
  intros Hf Ht Hs.
  unfold testInternetSpeed, estimate.
  rewrite Hf, Ht. simpl.
  destruct (String.eqb s "") eqn:E.
  - apply String.eqb_eq in E. contradiction.
  - simpl. eexists. split; reflexivity.
Qed.

(** Removing the non-numeric characters. *)

Lemma strip_app (a b : string) :
  strip_non_numeric (a ++ b) = strip_non_numeric a ++ strip_non_numeric b.
Proof.
  induction a as [|c a IH]; simpl; [reflexivity|].
  destruct (is_digit c || Ascii.eqb c "."); simpl; now rewrite IH.
Qed.

Lemma strip_no_numeric (s : string) :
  no_numeric s = true -> strip_non_numeric s = "".
Proof.
  induction s as [|c s IH]; simpl; [reflexivity|].
  unfold is_numeric.
  destruct (is_digit c || Ascii.eqb c "."); simpl; [discriminate | exact IH].
Qed.

Lemma strip_all_numeric (s : string) :
  all_numeric s = true -> strip_non_numeric s = s.
Proof.
  induction s as [|c s IH]; simpl; [reflexivity|].
  unfold is_numeric.
  destruct (is_digit c || Ascii.eqb c "."); simpl; [|discriminate].
  intros H. now rewrite IH.
Qed.

Lemma append_empty_r (s : string) : s ++ "" = s.
Proof. induction s as [|c s IH]; simpl; [reflexivity | now rewrite IH]. Qed.

Lemma strip_interleave (parts : list (string * string)) :
  well_cut parts = true -> strip_non_numeric (interleave parts) = runs parts.
Proof.
  induction parts as [|[gap run] rest IH]; simpl; [reflexivity|].
  intros H.
  apply andb_true_iff in H as [H Hrest].
  apply andb_true_iff in H as [Hgap Hrun].
  rewrite !strip_app.
  rewrite (strip_no_numeric gap Hgap), (strip_all_numeric run Hrun).
  rewrite (IH Hrest). reflexivity.
Qed.

Lemma leading_no_numeric (s : string) :
  no_numeric s = true -> leading_numeric_component s = "".
Proof.
  induction s as [|c s IH]; simpl; [reflexivity|].
  destruct (is_numeric c); simpl; [discriminate | exact IH].
Qed.

Lemma take_numeric_run (run post : string) :
  all_numeric run = true -> no_numeric post = true ->
  take_numeric (run ++ post) = run.
Proof.
  intros Hrun Hpost.
  induction run as [|c run IH]; simpl in *.
  - destruct post as [|c post]; simpl in *; [reflexivity|].
    destruct (is_numeric c); [discriminate | reflexivity].
  - destruct (is_numeric c); simpl in *; [|discriminate].
    now rewrite IH.
Qed.

Lemma leading_single_run (gap run post : string) :
  no_numeric gap = true -> all_numeric run = true -> no_numeric post = true ->
  leading_numeric_component (gap ++ run ++ post) = run.
Proof.
  intros Hgap Hrun Hpost.
  induction gap as [|c gap IH]; simpl in *.
  - destruct run as [|c run].
    + simpl. now apply leading_no_numeric.
    + change (String c run ++ post) with (String c (run ++ post)).
      cbn [leading_numeric_component].
      simpl in Hrun.
      destruct (is_numeric c) eqn:E; [|discriminate].
      change (String c (run ++ post)) with (String c run ++ post).
      apply take_numeric_run; [|exact Hpost].
      simpl. now rewrite E.
  - destruct (is_numeric c); simpl in *; [discriminate|].
    now apply IH.
Qed.

(** C8: what the code does.  The numeric characters of the whole string
    (digits and full stops) are put together before [parseFloat] reads
    them: however the string is cut into stretches without such characters
    and runs of them, the size is what [parseFloat] reads in the runs glued
    to one another, so the digits of a later run are appended to the
    leading numeric component.  Only with a single run is the size the
    number of the leading numeric component. *)
Theorem size_reads_all_numeric_characters :
  (forall parts : list (string * string),
     well_cut parts = true ->
     sizeInMB (interleave parts) = parseFloat (runs parts)) /\
  (forall gap run post : string,
     no_numeric gap = true -> all_numeric run = true ->
     no_numeric post = true ->
     sizeInMB (gap ++ run ++ post)
     = parseFloat (leading_numeric_component (gap ++ run ++ post))).
Proof.
  split.
  - intros parts H. unfold sizeInMB. now rewrite strip_interleave.
  - intros gap run post Hgap Hrun Hpost.
    rewrite (leading_single_run gap run post Hgap Hrun Hpost).
    unfold sizeInMB. rewrite !strip_app.
    rewrite (strip_no_numeric gap Hgap), (strip_no_numeric post Hpost).
    rewrite (strip_all_numeric run Hrun). simpl.
    now rewrite append_empty_r.
Qed.

Lemma size_reads_all_numeric_characters_witness :
  sizeInMB "51.0 MB" = parseFloat (leading_numeric_component "51.0 MB") /\
  sizeInMB "1.2 GB (x2)" = parseFloat "1.22" /\
  sizeInMB "~51 MB (5 packages)" = parseFloat "515".
Proof.
  split; [|split].
  - apply (proj2 size_reads_all_numeric_characters "" "51.0" " MB");
      reflexivity.
  - apply (proj1 size_reads_all_numeric_characters
             [("", "1.2"); (" GB (x", "2"); (")", "")]).
    reflexivity.
  - apply (proj1 size_reads_all_numeric_characters
             [("~", "51"); (" MB (", "5"); (" packages)", "")]).
    reflexivity.
Defined.

(** C8 at its own example: the leading numeric component of [1.2 GB (x2)]
    is [1.2], and the size used is 1.22. *)
Lemma size_is_not_the_leading_component :
  leading_numeric_component "1.2 GB (x2)" = "1.2" /\
  num_eqb (sizeInMB "1.2 GB (x2)")
    (parseFloat (leading_numeric_component "1.2 GB (x2)")) = false /\
  num_eqb (sizeInMB "1.2 GB (x2)") (Fin (122 # 100)) = true.
Proof.
  repeat split.
Qed.

(** ** JSON extraction *)

Lemma append_assoc (a b c : string) : (a ++ b) ++ c = a ++ b ++ c.
Proof. induction a as [|x a IH]; simpl; [reflexivity | now rewrite IH]. Qed.

Lemma append_inv_head (a x y : string) : a ++ x = a ++ y -> x = y.
Proof.
  induction a as [|c a IH]; simpl; intros H; [exact H|].
  injection H as H. now apply IH.
Qed.

Lemma append_inj_length (a b x y : string) :
  a ++ x = b ++ y -> String.length a = String.length b -> a = b /\ x = y.
Proof.
  revert b. induction a as [|c a IH]; intros [|d b] H L; simpl in *;
    try discriminate.
  - auto.
  - injection H as -> H. injection L as L.
    destruct (IH b H L) as [-> ->]. auto.
Qed.

Lemma starts_with_append (p t : string) : starts_with p (p ++ t) = true.
Proof.
  induction p as [|c p IH]; simpl; [reflexivity|].
  now rewrite Ascii.eqb_refl, IH.
Qed.

Lemma starts_with_split (p s : string) :
  starts_with p s = true -> exists t, s = p ++ t.
Proof.
  revert s. induction p as [|c p IH]; intros s H; simpl in *.
  - now exists s.
  - destruct s as [|d s]; [discriminate|].
    apply andb_true_iff in H as [Hc Hp].
    apply Ascii.eqb_eq in Hc as ->.
    destruct (IH s Hp) as [t ->]. now exists t.
Qed.

Lemma skip_append (p t : string) : skip (String.length p) (p ++ t) = t.
Proof. induction p as [|c p IH]; simpl; [reflexivity | exact IH]. Qed.

Lemma contains_char_append (c : ascii) (a b : string) :
  contains_char c (a ++ b) = contains_char c a || contains_char c b.
Proof.
  induction a as [|x a IH]; simpl; [reflexivity|].
  now rewrite IH, orb_assoc.
Qed.

Lemma first_split_unique (p s pre post pre' post' : string) :
  first_split p s pre post -> first_split p s pre' post' ->
  pre = pre' /\ post = post'.
Proof.
  intros [E M] [E' M'].
  assert (L : String.length pre = String.length pre').
  { apply Nat.le_antisymm; [apply (M _ _ E') | apply (M' _ _ E)]. }
  rewrite E in E'.
  destruct (append_inj_length _ _ _ _ E' L) as [-> H].
  split; [reflexivity|]. now apply append_inv_head in H.
Qed.

Lemma first_split_here (p s t : string) :
  s = p ++ t -> first_split p s "" t.
Proof. intros H. split; [exact H | intros; simpl; lia]. Qed.

Lemma first_split_step (p s pre post : string) (c : ascii) :
  starts_with p (String c s) = false ->
  first_split p s pre post ->
  first_split p (String c s) (String c pre) post.
Proof.
  intros Hno [E M]. split.
  - simpl. now rewrite E.
  - intros [|d pre'] post' E'; simpl in E'.
    + rewrite E' in Hno. now rewrite starts_with_append in Hno.
    + injection E' as _ E'. simpl. apply le_n_S. now apply (M _ _ E').
Qed.

(** The lazy star stops at the first occurrence of the literal. *)
Lemma lazy_until_sound (lit s cap : string) :
  lazy_until lit s = Some cap -> exists post, first_split lit s cap post.
Proof.
  revert cap. induction s as [|c s IH]; intros cap H; simpl in H.
  - destruct (starts_with lit "") eqn:E; [|discriminate].
    injection H as <-. destruct (starts_with_split _ _ E) as [t Ht].
    exists t. now apply first_split_here.
  - destruct (starts_with lit (String c s)) eqn:E.
    + injection H as <-. destruct (starts_with_split _ _ E) as [t Ht].
      exists t. now apply first_split_here.
    + destruct (lazy_until lit s) as [cap'|] eqn:E'; [|discriminate].
      injection H as <-. destruct (IH cap' eq_refl) as [post Hpost].
      exists post. now apply first_split_step.
Qed.

Lemma lazy_until_exists (lit pre post : string) :
  exists cap, lazy_until lit (pre ++ lit ++ post) = Some cap.
Proof.
  induction pre as [|c pre [cap IH]]; simpl.
  - exists "". destruct (lit ++ post) eqn:E; simpl; rewrite <- E;
      now rewrite starts_with_append.
  - destruct (starts_with lit (String c (pre ++ lit ++ post)));
      [now exists "" |].
    rewrite IH. now exists (String c cap).
Qed.

(** Two occurrences of the opening fence do not overlap. *)
Lemma fence_open_no_overlap (a b x y : string) :
  a ++ fence_open ++ x = b ++ fence_open ++ y ->
  (String.length a < String.length b)%nat ->
  exists m, x = m ++ fence_open ++ y.
Proof.
  unfold fence_open.
  revert b. induction a as [|c a IH]; intros b H L.
  - destruct b as [|c1 [|c2 [|c3 [|c4 [|c5 [|c6 [|c7 b]]]]]]];
      simpl in *; try lia; try discriminate H.
    injection H as _ _ _ _ _ _ _ H. now exists b.
  - destruct b as [|d b]; simpl in *; [lia|].
    injection H as _ H. apply (IH b H). lia.
Qed.

(** An anchored match of the fence pattern, read as a statement on the
    text. *)
Lemma match_fence_here_sound (s cap : string) :
  match_fence_here s = Some cap ->
  exists rest post,
    s = fence_open ++ rest /\ first_split fence_close rest cap post.
Proof.
  unfold match_fence_here. intros H.
  destruct (starts_with fence_open s) eqn:E; [|discriminate].
  destruct (starts_with_split _ _ E) as [rest ->].
  rewrite skip_append in H.
  destruct (lazy_until_sound _ _ _ H) as [post Hpost].
  now exists rest, post.
Qed.

Lemma match_fence_here_none (s : string) :
  match_fence_here s = None ->
  starts_with fence_open s = false \/
  exists rest, s = fence_open ++ rest /\
               forall a b, rest <> a ++ fence_close ++ b.
Proof.
  unfold match_fence_here. intros H.
  destruct (starts_with fence_open s) eqn:E; [right | now left].
  destruct (starts_with_split _ _ E) as [rest ->].
  rewrite skip_append in H.
  exists rest. split; [reflexivity|].
  intros a b ->. destruct (lazy_until_exists fence_close a b) as [cap Hc].
  congruence.
Qed.

Lemma leftmost_here (m : string -> option string) (s r : string) :
  m s = Some r -> leftmost m s = Some r.
Proof. intros H. destruct s; simpl; now rewrite H. Qed.

Lemma leftmost_fence_sound (s cap : string) :
  leftmost match_fence_here s = Some cap -> first_fenced_interior s cap.
Proof.
  revert cap. induction s as [|c s IH]; intros cap H.
  - discriminate H.
  - cbn [leftmost] in H.
    destruct (match_fence_here (String c s)) eqn:E.
    + injection H as ->.
      destruct (match_fence_here_sound _ _ E) as (rest & post & Hs & Hc).
      exists "", rest, post. split; [|exact Hc].
      now apply first_split_here.
    + destruct (IH cap H) as (pre & rest & post & [Hs Hmin] & Hc).
      exists (String c pre), rest, post. split; [|exact Hc].
      destruct (match_fence_here_none _ E) as [Hno | (r & Hr & Hnone)].
      * now apply first_split_step.
      * exfalso.
        assert (Hov : "" ++ fence_open ++ r
                      = String c pre ++ fence_open ++ rest).
        { change ("" ++ fence_open ++ r) with (fence_open ++ r).
          rewrite <- Hr, Hs. reflexivity. }
        apply fence_open_no_overlap in Hov; [|simpl; lia].
        destruct Hov as [m Hm].
        apply (Hnone m ("json" ++ rest)).
        rewrite Hm. reflexivity.
Qed.

Lemma leftmost_fence_exists (s : string) :
  has_fenced_block s -> exists cap, leftmost match_fence_here s = Some cap.
Proof.
  intros (pre & body & post & ->).
  induction pre as [|c pre [cap IH]].
  - destruct (lazy_until_exists fence_close body post) as [cap Hc].
    exists cap.
    assert (Hm : match_fence_here (fence_open ++ body ++ fence_close ++ post)
                 = Some cap).
    { unfold match_fence_here.
      now rewrite starts_with_append, skip_append. }
    now apply leftmost_here.
  - change (String c pre ++ fence_open ++ body ++ fence_close ++ post)
      with (String c (pre ++ fence_open ++ body ++ fence_close ++ post)).
    cbn [leftmost].
    destruct (match_fence_here
                (String c (pre ++ fence_open ++ body ++ fence_close ++ post)))
      as [r|]; [now exists r | now exists cap].
Qed.

Lemma first_fenced_interior_block (s body : string) :
  first_fenced_interior s body -> has_fenced_block s.
Proof.
  intros (pre & rest & post & [Hs _] & [Hr _]).
  exists pre, body, post. now rewrite Hs, Hr.
Qed.

Lemma first_fenced_interior_unique (s body body' : string) :
  first_fenced_interior s body -> first_fenced_interior s body' ->
  body = body'.
Proof.
  intros (pre & rest & post & Ho & Hc) (pre' & rest' & post' & Ho' & Hc').
  destruct (first_split_unique _ _ _ _ _ _ Ho Ho') as [_ <-].
  now destruct (first_split_unique _ _ _ _ _ _ Hc Hc') as [<- _].
Qed.

Lemma first_split_by_search (p s pre post : string) :
  lazy_until p s = Some pre -> s = pre ++ p ++ post ->
  first_split p s pre post.
Proof.
  intros H E. destruct (lazy_until_sound _ _ _ H) as [post' Hs].
  destruct Hs as [E' M]. rewrite E in E'.
  apply append_inv_head, append_inv_head in E'. subst post'.
  split; [exact E | exact M].
Qed.

(** The greedy star stops at the last closing brace. *)
Lemma greedy_none (s : string) :
  greedy_to_brace s = None -> contains_char "}" s = false.
Proof.
  induction s as [|c s IH]; simpl; [reflexivity|].
  destruct (greedy_to_brace s); [discriminate|].
  destruct (Ascii.eqb c "}"); [discriminate|].
  intros _. now apply IH.
Qed.

Lemma greedy_exists (mid post : string) :
  exists m, greedy_to_brace (mid ++ "}" ++ post) = Some m.
Proof.
  induction mid as [|c mid [m IH]].
  - simpl. destruct (greedy_to_brace post) as [m|]; eauto.
  - change (String c mid ++ "}" ++ post)
      with (String c (mid ++ "}" ++ post)).
    cbn [greedy_to_brace]. rewrite IH. eauto.
Qed.

Lemma greedy_sound (s m : string) :
  greedy_to_brace s = Some m ->
  exists mid post,
    s = m ++ post /\ m = mid ++ "}" /\ contains_char "}" post = false.
Proof.
  revert m. induction s as [|c s IH]; intros m H; simpl in H; [discriminate|].
  destruct (greedy_to_brace s) as [m'|] eqn:E.
  - injection H as <-.
    destruct (IH m' eq_refl) as (mid & post & -> & -> & Hp).
    exists (String c mid), post. auto.
  - destruct (Ascii.eqb c "}") eqn:Ec; [|discriminate].
    injection H as <-. apply Ascii.eqb_eq in Ec as ->.
    exists "", s. repeat split. now apply greedy_none.
Qed.

Lemma match_curly_here_sound (s m : string) :
  match_curly_here s = Some m ->
  exists mid post,
    s = m ++ post /\ m = "{" ++ mid ++ "}" /\ contains_char "}" post = false.
Proof.
  destruct s as [|c s]; simpl; [discriminate|].
  destruct (Ascii.eqb c "{") eqn:Ec; [|discriminate].
  destruct (greedy_to_brace s) as [m'|] eqn:E; [|discriminate].
  intros H. injection H as <-. apply Ascii.eqb_eq in Ec as ->.
  destruct (greedy_sound _ _ E) as (mid & post & -> & -> & Hp).
  exists mid, post. auto.
Qed.

Lemma leftmost_curly_sound (s m : string) :
  leftmost match_curly_here s = Some m -> first_to_last_brace s m.
Proof.
  revert m. induction s as [|c s IH]; intros m H.
  - discriminate H.
  - cbn [leftmost] in H.
    destruct (match_curly_here (String c s)) as [r|] eqn:E.
    + injection H as ->.
      destruct (match_curly_here_sound _ _ E) as (mid & post & Hs & Hm & Hp).
      exists "", mid, post. auto.
    + destruct (IH m H) as (pre & mid & post & Hs & Hm & Hpre & Hpost).
      exists (String c pre), mid, post.
      split; [simpl; now rewrite Hs|]. split; [exact Hm|].
      split; [|exact Hpost].
      simpl. rewrite Hpre, orb_false_r.
      destruct (Ascii.eqb c "{") eqn:Ec; [|reflexivity].
      exfalso. simpl in E. rewrite Ec in E.
      destruct (greedy_to_brace s) eqn:Eg; [discriminate|].
      apply greedy_none in Eg. rewrite Hs, Hm in Eg.
      rewrite !contains_char_append in Eg. simpl in Eg.
      destruct (contains_char "}" pre), (contains_char "}" mid);
        discriminate Eg.
Qed.

Lemma leftmost_curly_exists (s : string) :
  has_brace_span s -> exists m, leftmost match_curly_here s = Some m.
Proof.
  intros (pre & mid & post & ->).
  induction pre as [|c pre [m IH]].
  - destruct (greedy_exists mid post) as [m Hm].
    exists (String "{" m). apply leftmost_here.
    change ("" ++ "{" ++ mid ++ "}" ++ post)
      with (String "{" (mid ++ "}" ++ post)).
    unfold match_curly_here. now rewrite Hm.
  - change (String c pre ++ "{" ++ mid ++ "}" ++ post)
      with (String c (pre ++ "{" ++ mid ++ "}" ++ post)).
    cbn [leftmost].
    destruct (match_curly_here (String c (pre ++ "{" ++ mid ++ "}" ++ post)))
      as [r|]; [now exists r | now exists m].
Qed.




Lemma no_block_no_fence_match (s : string) :
  ~ has_fenced_block s -> leftmost match_fence_here s = None.
Proof.
  intros H. destruct (leftmost match_fence_here s) as [cap|] eqn:E;
    [|reflexivity].
  exfalso. apply H. eapply first_fenced_interior_block.
  apply leftmost_fence_sound. exact E.
Qed.

Lemma first_block_is_extracted (s body : string) :
  first_fenced_interior s body -> extractJSON s = Some (trim body).
Proof.
  intros Hb.
  destruct (leftmost_fence_exists s (first_fenced_interior_block _ _ Hb))
    as [cap Hc].
  unfold extractJSON. rewrite Hc. do 2 f_equal.
  apply (first_fenced_interior_unique s); [|exact Hb].
  now apply leftmost_fence_sound.
Qed.


Lemma no_fence_match_no_block (s : string) :
  leftmost match_fence_here s = None -> ~ has_fenced_block s.
Proof.
  intros H Hb. destruct (leftmost_fence_exists s Hb) as [cap Hc]. congruence.
Qed.



(** C10, as amended.  The fenced branch looks for the characters of the
    opening fence with json in lower case and asks for nothing after them.
    In a text where they do not occur, such as one whose fence is labelled
    JSON in upper case or has no label, the fenced branch finds nothing and
    the result is that of the brace heuristic.  A fence whose label only
    begins with json is matched, and what follows json in the label is
    returned with the interior.  In a text with two fenced json blocks the
    result is the trimmed interior of the first block. *)
Theorem fence_label_and_first_block :
  (forall s,
     ~ mentions_fence_open s ->
     leftmost match_fence_here s = None /\
     extractJSON s = leftmost match_curly_here s) /\
  (leftmost match_fence_here uppercase_fence_text = None /\
   extractJSON uppercase_fence_text = Some "{a}") /\
  (leftmost match_fence_here unlabelled_fence_text = None /\
   extractJSON unlabelled_fence_text = Some "{a}") /\
  (forall pre b1 mid b2 post,
     let after := mid ++ fence_open ++ b2 ++ fence_close ++ post in
     let rest := b1 ++ fence_close ++ after in
     first_split fence_open (pre ++ fence_open ++ rest) pre rest ->
     first_split fence_close rest b1 after ->
     extractJSON (pre ++ fence_open ++ rest) = Some (trim b1)) /\
  (forall pre more body post,
     let rest := (more ++ body) ++ fence_close ++ post in
     first_split fence_open (pre ++ fence_open ++ rest) pre rest ->
     first_split fence_close rest (more ++ body) post ->
     leftmost match_fence_here (pre ++ fence_open ++ rest)
     = Some (more ++ body) /\
     extractJSON (pre ++ fence_open ++ rest) = Some (trim (more ++ body))).
Proof.
  split; [|split; [|split; [|split]]].
  - intros s Hno.
    assert (H : leftmost match_fence_here s = None).
    { destruct (leftmost match_fence_here s) as [cap|] eqn:E; [|reflexivity].
      exfalso. apply Hno.
      destruct (leftmost_fence_sound _ _ E) as (pre & rest & _ & [Hs _] & _).
      now exists pre, rest. }
    split; [exact H|].
    unfold extractJSON. rewrite H.
    now destruct (leftmost match_curly_here s).
  - split; reflexivity.
  - split; reflexivity.
  - intros pre b1 mid b2 post after rest Ho Hc.
    apply first_block_is_extracted. now exists pre, rest, after.
  - intros pre more body post rest Ho Hc.
    assert (Hf : first_fenced_interior (pre ++ fence_open ++ rest)
                   (more ++ body)) by (now exists pre, rest, post).
    split; [|now apply first_block_is_extracted].
    destruct (leftmost_fence_exists _ (first_fenced_interior_block _ _ Hf))
      as [cap Hcap].
    rewrite Hcap. f_equal.
    apply (first_fenced_interior_unique (pre ++ fence_open ++ rest));
      [|exact Hf].
    now apply leftmost_fence_sound.
Qed.

Lemma fence_label_and_first_block_witness :
  extractJSON two_blocks_text = Some "{a}" /\
  extractJSON json5_fence_text = Some ("5" ++ nl ++ "{a}").
Proof.
  split.
  - destruct fence_label_and_first_block as (_ & _ & _ & H & _).
    apply (H "A: " " {a} " " B: " " {b} " "");
      apply first_split_by_search; reflexivity.
  - destruct fence_label_and_first_block as (_ & _ & _ & _ & H).
    apply (H "" "5" (nl ++ "{a}" ++ nl) "");
      apply first_split_by_search; reflexivity.
Defined.

(** C10, as stated, fails: the fence of [json5_fence_text] is labelled
    json5, not json, yet the fenced branch matches it and the result, which
    begins with the 5 of the label, is not that of the brace heuristic. *)
Lemma json5_fence_is_matched :
  json5_fence_text = "```" ++ "json5" ++ nl ++ "{a}" ++ nl ++ "```" /\
  "json5" <> "json" /\
  leftmost match_fence_here json5_fence_text
  = Some ("5" ++ nl ++ "{a}" ++ nl) /\
  extractJSON json5_fence_text = Some ("5" ++ nl ++ "{a}") /\
  leftmost match_curly_here json5_fence_text = Some "{a}" /\
  extractJSON json5_fence_text <> leftmost match_curly_here json5_fence_text.
Proof.
  repeat split; discriminate.
Qed.

End Properties.

(** * Further properties *)

Module MoreProperties.
Import Str JS Regex Extract Platform GeminiService App Spec Examples.
Import ComputeCapabilitiesForm Derived MoreExamples Properties.

(** ** The analysis operations *)

Section MoreClientProperties.

Variable JSON_parse : string -> Completion JSValue.

Lemma docker_result_is_array (genAI : option GenerativeAI) (d : string) :
  exists v, analyzeDockerfile JSON_parse genAI d = Normal v /\
            Array_isArray v = true.
Proof.
  destruct genAI as [ai|]; [|eexists; split; reflexivity].
  destruct (dockerfile_outcome JSON_parse ai d)
    as [H | (t & p & _ & _ & Ha & H)]; rewrite H; eauto.
Qed.

Lemma requirements_result_fields (genAI : option GenerativeAI) (r : string) :
  exists v, analyzeRequirements JSON_parse genAI r = Normal v /\
            truthy_field v "requirements" = true /\
            truthy_field v "totalSize" = true.
Proof.
  destruct genAI as [ai|]; [|eexists; repeat split; reflexivity].
  destruct (requirements_outcome JSON_parse ai r)
    as [H | (t & p & _ & _ & H1 & H2 & H)]; rewrite H; eauto.
Qed.

Lemma compilation_result_field (genAI : option GenerativeAI) (d r : string)
  (c : ComputeCapabilities) :
  exists v, analyzeCompilationTime JSON_parse genAI d r c = Normal v /\
            truthy_field v "totalEstimatedTime" = true.
Proof.
  destruct genAI as [ai|]; [|eexists; split; reflexivity].
  destruct (compilation_outcome JSON_parse ai d r c)
    as [H | (t & p & _ & _ & H1 & H)]; rewrite H; eauto.
Qed.

(** X1. Whatever the credential, the remote capability and [JSON.parse] do,
    the value an analysis operation returns passes the operation's own
    shape check: [analyzeDockerfile] returns an array,
    [analyzeRequirements] a value whose [requirements] and [totalSize] are
    truthy, [analyzeCompilationTime] a value whose [totalEstimatedTime] is
    truthy. *)
Theorem results_pass_shape_check (genAI : option GenerativeAI)
  (d r : string) (c : ComputeCapabilities) :
  (exists v, analyzeDockerfile JSON_parse genAI d = Normal v /\
             Array_isArray v = true) /\
  (exists v, analyzeRequirements JSON_parse genAI r = Normal v /\
             truthy_field v "requirements" = true /\
             truthy_field v "totalSize" = true) /\
  (exists v, analyzeCompilationTime JSON_parse genAI d r c = Normal v /\
             truthy_field v "totalEstimatedTime" = true).
Proof.
  split; [|split].
  - apply docker_result_is_array.
  - apply requirements_result_fields.
  - apply compilation_result_field.
Qed.

Variable ai : GenerativeAI.

(** X2. When the text handed to [JSON.parse] parses, [analyzeDockerfile]
    returns the parsed value itself if it is an array and the static
    fallback otherwise. *)
Theorem dockerfile_shape_check (d text : string) (parsed : JSValue) :
  ai model_name (dockerfile_prompt d) = Normal text ->
  JSON_parse (json_text text) = Normal parsed ->
  analyzeDockerfile JSON_parse (Some ai) d
  = Normal (if Array_isArray parsed then parsed
            else getFallbackDockerAnalysis).
Proof.
  intros Hai Hp. unfold analyzeDockerfile.
  unfold model_name in Hai. unfold json_text in Hp.
  rewrite Hai; simpl. rewrite Hp; simpl. reflexivity.
Qed.

(** X3. When the text handed to [JSON.parse] parses,
    [analyzeCompilationTime] returns the parsed value itself if its
    [totalEstimatedTime] is truthy, and the static fallback if that
    property is missing or falsy or the value is [null]. *)
Theorem compilation_shape_check (d r text : string) (c : ComputeCapabilities)
  (parsed : JSValue) :
  ai model_name (compilation_prompt d r c) = Normal text ->
  JSON_parse (json_text text) = Normal parsed ->
  analyzeCompilationTime JSON_parse (Some ai) d r c
  = Normal (if truthy_field parsed "totalEstimatedTime" then parsed
            else getFallbackCompilationAnalysis).
Proof.
  intros Hai Hp. unfold analyzeCompilationTime, truthy_field.
  unfold model_name in Hai. unfold json_text in Hp.
  rewrite Hai; simpl. rewrite Hp; simpl.
  destruct (get_prop parsed "totalEstimatedTime") as [t|]; simpl;
    reflexivity.
Qed.

(** The brace heuristic hands over a text that begins with a brace. *)
Lemma brace_span_is_parsed (text : string) :
  ~ has_fenced_block text -> has_brace_span text ->
  exists rest, json_text text = String "{" rest /\
               part_of (String "{" rest) text.
Proof.
  intros Hno Hb.
  destruct (leftmost_curly_exists text Hb) as [m Hm].
  destruct (leftmost_curly_sound _ _ Hm) as (pre & mid & post & Hs & -> & _).
  exists (mid ++ "}").
  split.
  - unfold json_text, extractJSON.
    rewrite (no_block_no_fence_match text Hno), Hm. reflexivity.
  - exists pre, post. exact Hs.
Qed.

(** X4. A response without a fenced block in which an opening brace is
    followed by a closing brace never yields a remote Dockerfile analysis:
    the text from the first opening brace to the last closing brace is what
    gets parsed, a JSON text that begins with a brace is not an array, and
    [analyzeDockerfile] returns the fallback.  So an array of objects is
    accepted only inside a fenced block. *)
Theorem unfenced_braces_give_docker_fallback (d text : string) :
  (forall rest v, JSON_parse (String "{" rest) = Normal v ->
                  Array_isArray v = false) ->
  ai model_name (dockerfile_prompt d) = Normal text ->
  ~ has_fenced_block text ->
  has_brace_span text ->
  analyzeDockerfile JSON_parse (Some ai) d = Normal getFallbackDockerAnalysis.
Proof.
  intros Hobj Hai Hno Hb.
  destruct (brace_span_is_parsed text Hno Hb) as (rest & Hj & _).
  unfold analyzeDockerfile. unfold model_name in Hai.
  rewrite Hai; simpl. fold (json_text text). rewrite Hj.
  destruct (JSON_parse (String "{" rest)) as [v|] eqn:E; simpl;
    [|reflexivity].
  now rewrite (Hobj rest v E).
Qed.

End MoreClientProperties.

(** [Platform.JSON_parse] reads a text that begins with a brace as an
    object. *)
Lemma read_members_object (fuel : nat) :
  forall acc s v rest,
    read_members fuel acc s = Some (v, rest) -> Array_isArray v = false.
Proof.
  induction fuel as [|f IH]; intros acc s v rest H; [discriminate H|].
  cbn [read_members] in H.
  repeat match type of H with
         | context [match ?x with _ => _ end] =>
             destruct x eqn:?; try discriminate H
         end.
  - now apply IH in H.
  - now injection H as <- _.
Qed.

Lemma read_value_brace (fuel : nat) (rest : string) :
  read_value (S fuel) (String "{" rest)
  = match skip_space rest with
    | String c r =>
        if Ascii.eqb c "}" then Some (JObject [], r)
        else read_members fuel [] rest
    | EmptyString => None
    end.
Proof. reflexivity. Qed.

Lemma platform_brace_is_object (rest : string) (v : JSValue) :
  Platform.JSON_parse (String "{" rest) = Normal v -> Array_isArray v = false.
Proof.
  unfold Platform.JSON_parse.
  destruct (read_value (2 * String.length (String "{" rest) + 2)
              (String "{" rest)) as [[v' r]|] eqn:E; [|discriminate].
  intros H. assert (v' = v) as <-.
  { destruct (skip_space r); [now injection H | discriminate H]. }
  clear H. revert E.
  replace (2 * String.length (String "{" rest) + 2)%nat
    with (S (2 * String.length rest + 3))%nat by (simpl; lia).
  rewrite read_value_brace.
  destruct (skip_space rest) as [|c' r'] eqn:Es; [discriminate|].
  destruct (Ascii.eqb c' "}").
  - intros H. now injection H as <- _.
  - apply read_members_object.
Qed.

Lemma unfenced_braces_give_docker_fallback_witness :
  analyzeDockerfile Platform.JSON_parse (Some (answering bare_array_response))
    "FROM node"
  = Normal getFallbackDockerAnalysis.
Proof.
  apply (unfenced_braces_give_docker_fallback Platform.JSON_parse
           (answering bare_array_response) "FROM node" bare_array_response).
  - apply platform_brace_is_object.
  - reflexivity.
  - apply no_fence_match_no_block. reflexivity.
  - exists "[", (quoted "instruction" ++ ":" ++ quoted "FROM node"),
      (",{" ++ quoted "instruction" ++ ":" ++ quoted "RUN make" ++ "}]").
    reflexivity.
Defined.

Lemma dockerfile_shape_check_witness :
  analyzeDockerfile Platform.JSON_parse
    (Some (answering fenced_array_response)) "FROM node"
  = Normal (JArray [ JObject [("instruction", JString "FROM node")];
                     JObject [("instruction", JString "RUN make")] ]).
Proof.
  apply (dockerfile_shape_check Platform.JSON_parse
           (answering fenced_array_response) "FROM node"
           fenced_array_response
           (JArray [ JObject [("instruction", JString "FROM node")];
                     JObject [("instruction", JString "RUN make")] ])).
  - reflexivity.
  - vm_compute. reflexivity.
Defined.

Lemma compilation_shape_check_witness :
  analyzeCompilationTime Platform.JSON_parse
    (Some (answering compilation_response)) "FROM node" "flask"
    default_capabilities
  = Normal (JObject [("totalEstimatedTime", JString "3 minutes")]).
Proof.
  apply (compilation_shape_check Platform.JSON_parse
           (answering compilation_response) "FROM node" "flask"
           compilation_response default_capabilities
           (JObject [("totalEstimatedTime", JString "3 minutes")])).
  - reflexivity.
  - vm_compute. reflexivity.
Defined.

(** ** What is handed to JSON.parse *)





Lemma trim_start_suffix (s : string) : exists a, s = a ++ trim_start s.
Proof.
  induction s as [|c s [a IH]]; simpl.
  - now exists "".
  - destruct (is_white_space c).
    + exists (String c a). simpl. now rewrite <- IH.
    + now exists "".
Qed.

Lemma trim_end_prefix (s : string) : exists b, s = trim_end s ++ b.
Proof.
  induction s as [|c s [b IH]]; simpl.
  - now exists "".
  - destruct (trim_end s) as [|d t] eqn:E.
    + destruct (is_white_space c).
      * now exists (String c s).
      * exists s. reflexivity.
    + exists b. simpl. simpl in IH. now rewrite <- IH.
Qed.

Lemma trim_part_of (s : string) : part_of (trim s) s.
Proof.
  unfold trim. destruct (trim_start_suffix s) as [a Ha].
  destruct (trim_end_prefix (trim_start s)) as [b Hb].
  exists a, b. now rewrite <- Hb.
Qed.

(** X6. [extractJSON] cuts and never rewrites: a result is a contiguous
    part of the text it was given. *)
Theorem extractJSON_part_of (text j : string) :
  extractJSON text = Some j -> part_of j text.
Proof.
  unfold extractJSON.
  destruct (leftmost match_fence_here text) as [cap|] eqn:E.
  - intros H. injection H as <-.
    destruct (leftmost_fence_sound _ _ E)
      as (pre & rest & post & [Hs _] & [Hr _]).
    destruct (trim_part_of cap) as (a & b & Hc).
    exists (pre ++ fence_open ++ a), (b ++ fence_close ++ post).
    rewrite Hs, Hr. rewrite Hc at 1.
    now rewrite !append_assoc.
  - destruct (leftmost match_curly_here text) as [m|] eqn:E';
      [|discriminate].
    intros H. injection H as <-.
    destruct (leftmost_curly_sound _ _ E') as (pre & mid & post & Hs & _).
    now exists pre, post.
Qed.

Lemma extractJSON_part_of_witness :
  part_of "{a}" two_blocks_text.
Proof.
  apply (extractJSON_part_of two_blocks_text "{a}"). reflexivity.
Defined.

(** ** The estimate *)

Lemma inject_Z_pred (z : Z) : inject_Z (z - 1) == inject_Z z - 1.
Proof.
  unfold Z.sub. rewrite inject_Z_plus, inject_Z_opp. reflexivity.
Qed.

Lemma Qceiling_unique (x : Q) (c : Z) :
  inject_Z c - 1 < x -> x <= inject_Z c -> Qceiling x = c.
Proof.
  intros Hlo Hhi.
  assert (H1 := Qle_ceiling x). assert (H2 := Qceiling_lt x).
  assert (A : inject_Z (Qceiling x - 1) < inject_Z c) by lra.
  assert (B : inject_Z (c - 1) < inject_Z (Qceiling x)).
  { rewrite inject_Z_pred. lra. }
  rewrite <- Zlt_Qlt in A, B. lia.
Qed.





(** ** The size read from the total *)

Lemma strip_is_numeric (s : string) : all_numeric (strip_non_numeric s) = true.
Proof.
  induction s as [|c s IH]; simpl; [reflexivity|].
  destruct (is_digit c || Ascii.eqb c ".") eqn:E; [|exact IH].
  simpl. unfold is_numeric. now rewrite E, IH.
Qed.

(** A digit or a full stop is not white space, not a sign and not the
    first letter of [Infinity]. *)
Lemma numeric_char_is_plain (c : ascii) :
  is_numeric c = true ->
  is_white_space c = false /\ Ascii.eqb c "-" = false /\
  Ascii.eqb c "+" = false /\ Ascii.eqb c "I" = false.
Proof.
  destruct c as [[] [] [] [] [] [] [] []]; vm_compute; intros H;
    try discriminate H; repeat split.
Qed.

Lemma read_digits_nonnegative (s : string) :
  forall acc count m n r,
    (0 <= acc)%Z -> read_digits acc count s = (m, n, r) -> (0 <= m)%Z.
Proof.
  induction s as [|c s IH]; intros acc count m n r Hacc H; simpl in H.
  - injection H as <- _ _. exact Hacc.
  - destruct (is_digit c).
    + eapply IH; [|exact H]. unfold digit_value. lia.
    + injection H as <- _ _. exact Hacc.
Qed.

Lemma scale10_nonnegative (m : Z) (e : Z) :
  (0 <= m)%Z -> 0 <= scale10 (inject_Z m) e.
Proof.
  intros Hm. unfold scale10.
  assert (Hq : 0 <= inject_Z m).
  { change 0 with (inject_Z 0). now rewrite <- Zle_Qle. }
  assert (Hp : forall k, 0 <= inject_Z (10 ^ k)).
  { intros k. change 0 with (inject_Z 0). rewrite <- Zle_Qle.
    apply Z.pow_nonneg. lia. }
  destruct (0 <=? e)%Z.
  - apply Qmult_le_0_compat; [exact Hq | apply Hp].
  - unfold Qdiv. apply Qmult_le_0_compat; [exact Hq|].
    apply Qinv_le_0_compat. apply Hp.
Qed.

Lemma read_decimal_nonnegative (s r : string) (q : Q) :
  read_decimal s = Some (q, r) -> 0 <= q.
Proof.
  unfold read_decimal.
  destruct (read_digits 0 0 s) as [[ip n1] r1] eqn:E1.
  assert (Hip : (0 <= ip)%Z)
    by (apply (read_digits_nonnegative _ _ _ _ _ _ (Z.le_refl 0) E1)).
  assert (H2 : forall m n2 r2,
             match r1 with
             | String c r0 =>
                 if Ascii.eqb c "." then read_digits ip 0 r0 else (ip, O, r1)
             | EmptyString => (ip, O, r1)
             end = (m, n2, r2) -> (0 <= m)%Z).
  { intros m n2 r2. destruct r1 as [|c r0].
    - intros H. now injection H as <- _ _.
    - destruct (Ascii.eqb c ".").
      + apply read_digits_nonnegative. exact Hip.
      + intros H. now injection H as <- _ _. }
  destruct (match r1 with
            | String c r0 =>
                if Ascii.eqb c "." then read_digits ip 0 r0 else (ip, O, r1)
            | EmptyString => (ip, O, r1)
            end) as [[m n2] r2] eqn:E2.
  specialize (H2 m n2 r2 eq_refl).
  destruct (n1 + n2)%nat; [discriminate|].
  destruct (read_exponent r2) as [e r3].
  intros H. injection H as <- _. now apply scale10_nonnegative.
Qed.

(** Removing everything but digits and full stops leaves [parseFloat] no
    sign to read. *)
Lemma size_is_NaN_or_nonnegative (totalSize : string) :
  sizeInMB totalSize = NaN \/
  exists q, sizeInMB totalSize = Fin q /\ 0 <= q.
Proof.
  unfold sizeInMB.
  assert (Hn := strip_is_numeric totalSize).
  destruct (strip_non_numeric totalSize) as [|c t] eqn:E.
  - left. reflexivity.
  - simpl in Hn. apply andb_true_iff in Hn as [Hc _].
    destruct (numeric_char_is_plain c Hc) as (Hw & Hminus & Hplus & HI).
    unfold parseFloat. cbn [trim_start]. rewrite Hw, Hminus, Hplus.
    cbn [starts_with]. rewrite Ascii.eqb_sym in HI. rewrite HI.
    cbn [andb].
    destruct (read_decimal (String c t)) as [[q r]|] eqn:Ed.
    + right. exists q. split; [reflexivity|].
      now apply read_decimal_nonnegative in Ed.
    + now left.
Qed.

(** X8. Neither the size read from the total nor the time computed from it
    is ever negative, whatever the text of the total: the sign characters
    are removed with the other non-numeric characters before [parseFloat]
    reads the text, and the speed is at least 1. *)
Theorem estimate_is_never_negative (totalSize : string) (speed : JSNum) :
  num_lt (sizeInMB totalSize) (Fin 0) = false /\
  (num_le (Fin 1) speed = true ->
   num_lt (num_div (num_mul (sizeInMB totalSize) (Fin 8)) speed) (Fin 0)
   = false).
Proof.
  destruct (size_is_NaN_or_nonnegative totalSize) as [-> | (q & -> & Hq)].
  - split; [reflexivity | intros _; now destruct speed].
  - split.
    + apply Qltb_false. exact Hq.
    + destruct speed as [| | |sp]; try discriminate; intros H.
      * reflexivity.
      * apply Qle_bool_iff in H.
        change (num_mul (Fin q) (Fin 8)) with (Fin (q * 8)).
        unfold num_div.
        destruct (Qeq_bool sp 0) eqn:E.
        { apply Qeq_bool_iff in E. lra. }
        apply Qltb_false. apply Qle_shift_div_l; lra.
Qed.

Lemma estimate_is_never_negative_witness :
  num_lt (num_div (num_mul (sizeInMB "-51.0 MB") (Fin 8)) (Fin 10)) (Fin 0)
  = false.
Proof.
  apply (estimate_is_never_negative "-51.0 MB" (Fin 10)). reflexivity.
Defined.

(** ** Edges of the measurement *)

Lemma usable_size_estimate (results : AnalysisResults) (speed : JSNum) :
  size_is_usable results = true ->
  exists t, estimate (totalSize results) speed = Normal t.
Proof.
  unfold size_is_usable, estimate.
  destruct (totalSize results) as [v|]; simpl; [|eauto].
  destruct (truthy v); simpl; [|eauto].
  destruct v; simpl; try discriminate; eauto.
Qed.

(** The value a measured run stores. *)
Lemma measured_run_speed (results prev : AnalysisResults) (run : Run) :
  fetched run = Normal tt ->
  size_is_usable results = true ->
  internetSpeed (testInternetSpeed results run prev)
  = Some (round1
            (Math_max
               (num_mul
                  (num_div (Fin 1)
                     (Fin ((inject_Z (endTime run)
                            + - inject_Z (startTime run)) / 1000)))
                  (Fin 8))
               (Fin 1))).
Proof.
  intros Hf Hu. unfold testInternetSpeed. rewrite Hf. cbn [bind].
  match goal with
  | |- context [estimate (totalSize results) ?x] =>
      destruct (usable_size_estimate results x Hu) as [t ->]
  end.
  reflexivity.
Qed.

(** X9. When the two readings of the clock coincide, a fulfilled fetch
    stores the speed Infinity: the measurement is floored at 1 and has no
    upper bound. *)
Theorem coinciding_readings_store_infinity
  (results prev : AnalysisResults) (run : Run) :
  fetched run = Normal tt ->
  size_is_usable results = true ->
  endTime run = startTime run ->
  internetSpeed (testInternetSpeed results run prev) = Some PosInf.
Proof.
  intros Hf Hu He.
  rewrite (measured_run_speed results prev run Hf Hu). rewrite He.
  assert (E : Qeq_bool ((inject_Z (startTime run)
                         + - inject_Z (startTime run)) / 1000) 0 = true).
  { apply Qeq_bool_iff. field. }
  unfold num_div. rewrite E. reflexivity.
Qed.

Lemma coinciding_readings_store_infinity_witness :
  internetSpeed
    (testInternetSpeed (results_with "51.0 MB" None) (measured_run 0)
       no_results) = Some PosInf.
Proof.
  apply (coinciding_readings_store_infinity (results_with "51.0 MB" None)
           no_results (measured_run 0)); reflexivity.
Defined.

(** X10. A fulfilled fetch that took 8 seconds or more, or whose second
    reading of the clock is earlier than the first, stores the speed 1. *)
Theorem slow_fetch_stores_1 (results prev : AnalysisResults) (run : Run) :
  fetched run = Normal tt ->
  size_is_usable results = true ->
  (8000 <= endTime run - startTime run \/ endTime run < startTime run)%Z ->
  exists v,
    internetSpeed (testInternetSpeed results run prev) = Some v /\
    num_eqb v (Fin 1) = true.
Proof.
  intros Hf Hu Hms.
  rewrite (measured_run_speed results prev run Hf Hu).
  set (d := (inject_Z (endTime run) + - inject_Z (startTime run)) / 1000).
  assert (Hd : 8 <= d \/ d < 0).
  { unfold d. destruct Hms as [H | H].
    - left. apply Qle_shift_div_l; [lra|].
      assert (A : inject_Z 8000 <= inject_Z (endTime run - startTime run))
        by (now rewrite <- Zle_Qle).
      unfold Z.sub in A. rewrite inject_Z_plus, inject_Z_opp in A.
      change (inject_Z 8000) with 8000%Q in A. lra.
    - right. apply Qlt_shift_div_r; [lra|].
      rewrite Zlt_Qlt in H. lra. }
  assert (Hnz : Qeq_bool d 0 = false).
  { destruct (Qeq_bool d 0) eqn:E; [|reflexivity].
    apply Qeq_bool_iff in E. lra. }
  unfold num_div. rewrite Hnz.
  change (num_mul (Fin (1 / d)) (Fin 8)) with (Fin (1 / d * 8)).
  assert (Hsp : 1 / d * 8 <= 1).
  { assert (E : 1 / d * 8 == 8 / d) by (field; lra).
    rewrite E. destruct Hd as [H | H].
    - apply Qle_shift_div_r; lra.
    - assert (N : 8 / d <= 0).
      { assert (E2 : 8 / d == - (8 / - d)) by (field; lra).
        rewrite E2.
        assert (P : 0 <= 8 / - d) by (apply Qle_shift_div_l; lra).
        lra. }
      lra. }
  unfold Math_max.
  destruct (Qltb (1 / d * 8) 1) eqn:El.
  - eexists. split; reflexivity.
  - apply Qltb_false in El.
    destruct (round1_between (1 / d * 8) 10 10) as (q & -> & Hlo & Hhi).
    + change (inject_Z 10) with 10%Q. lra.
    + change (inject_Z 10) with 10%Q. lra.
    + exists (Fin q). split; [reflexivity|].
      apply Qeq_bool_iff.
      assert (E1 : inject_Z 10 / 10 == 1) by reflexivity. lra.
Qed.

Lemma slow_fetch_stores_1_witness :
  exists v,
    internetSpeed
      (testInternetSpeed (results_with "51.0 MB" None) (measured_run 9500)
         no_results) = Some v /\
    num_eqb v (Fin 1) = true.
Proof.
  apply (slow_fetch_stores_1 (results_with "51.0 MB" None) no_results
           (measured_run 9500)).
  - reflexivity.
  - reflexivity.
  - left. vm_compute. discriminate.
Defined.

(** X11. A truthy total size that is not a string (a number, [true], an
    array or an object taken from the remote answer) makes the speed test
    abandon its measurement: [replace] is not a function of such a value,
    so even when the fetch fulfils the handler stores the simulated speed
    and leaves the estimate of the previous state. *)
Theorem non_string_size_discards_measurement
  (results prev : AnalysisResults) (run : Run) (v : JSValue) :
  totalSize results = Some v ->
  truthy v = true ->
  is_string v = false ->
  internetSpeed (testInternetSpeed results run prev)
  = Some (round1 (num_add (Fin 25) (num_mul (Fin (random run)) (Fin 50)))) /\
  estimatedTime (testInternetSpeed results run prev) = estimatedTime prev.
Proof.
  intros Hs Ht Hn. unfold testInternetSpeed, estimate.
  rewrite Hs, Ht.
  destruct (fetched run) as [[]|]; cbn [bind];
    destruct v; try discriminate Hn; simpl; split; reflexivity.
Qed.

Lemma non_string_size_discards_measurement_witness :
  let stored :=
    analyzeFiles Platform.JSON_parse (Some (answering numeric_total_response))
      None (Some (readable "flask==2.3.3")) no_results in
  totalSize stored = Some (JNumber (Fin 51)) /\
  estimatedTime (testInternetSpeed stored (measured_run 800) stored) = None.
Proof.
  intros stored.
  assert (Hs : totalSize stored = Some (JNumber (Fin 51)))
    by (vm_compute; reflexivity).
  split; [exact Hs|].
  destruct (non_string_size_discards_measurement stored stored
              (measured_run 800) (JNumber (Fin 51)) Hs eq_refl eq_refl)
    as [_ H].
  rewrite H. reflexivity.
Defined.

(** ** The updates of the results record *)

Lemma truthy_field_value (v : JSValue) (key : string) :
  truthy_field v key = true ->
  exists x, get_prop v key = Normal x /\ truthy x = true.
Proof.
  unfold truthy_field. destruct (get_prop v key) as [x|]; [|discriminate].
  eauto.
Qed.

(** What [analyzeFiles] passes to [setResults], if it gets that far. *)
Lemma files_update_shape (JSON_parse : string -> Completion JSValue)
  (genAI : option GenerativeAI) (dockerFile requirementsFile : option File) :
  analyzeFiles JSON_parse genAI dockerFile requirementsFile = no_update \/
  exists n,
    analyzeFiles JSON_parse genAI dockerFile requirementsFile
    = (fun prev => spread prev n) /\
    internetSpeed n = None /\ estimatedTime n = None /\
    compilationAnalysis n = None /\
    (dockerFile = None -> dockerSteps n = None) /\
    (requirementsFile = None -> requirements n = None /\ totalSize n = None) /\
    optional Array_isArray (dockerSteps n) = true /\
    optional truthy (requirements n) = true /\
    optional truthy (totalSize n) = true /\
    present (requirements n) = present (totalSize n) /\
    (forall f d, dockerFile = Some f -> text f = Normal d ->
       exists v, analyzeDockerfile JSON_parse genAI d = Normal v /\
                 dockerSteps n = Some v).
Proof.
  unfold analyzeFiles, no_file_chosen.
  destruct dockerFile as [[[dc|]]|], requirementsFile as [[[rc|]]|];
    cbn [bind text]; try (now left).
  - destruct (docker_result_is_array JSON_parse genAI dc) as (v & Hv & Ha).
    destruct (requirements_result_fields JSON_parse genAI rc)
      as (w & Hw & H1 & H2).
    destruct (truthy_field_value _ _ H1) as (x & Hx & Tx).
    destruct (truthy_field_value _ _ H2) as (y & Hy & Ty).
    rewrite Hv. cbn [bind]. rewrite Hw. cbn [bind]. rewrite Hx, Hy.
    cbn [bind]. right. eexists. split; [reflexivity|].
    cbn. repeat split; auto; try discriminate.
    intros f d Hf Hd. injection Hf as <-. injection Hd as <-. eauto.
  - destruct (docker_result_is_array JSON_parse genAI dc) as (v & Hv & Ha).
    rewrite Hv. cbn [bind]. now left.
  - destruct (docker_result_is_array JSON_parse genAI dc) as (v & Hv & Ha).
    rewrite Hv. cbn [bind]. right. eexists. split; [reflexivity|].
    cbn. repeat split; auto; try discriminate.
    intros f d Hf Hd. injection Hf as <-. injection Hd as <-. eauto.
  - destruct (requirements_result_fields JSON_parse genAI rc)
      as (w & Hw & H1 & H2).
    destruct (truthy_field_value _ _ H1) as (x & Hx & Tx).
    destruct (truthy_field_value _ _ H2) as (y & Hy & Ty).
    rewrite Hw. cbn [bind]. rewrite Hx, Hy.
    cbn [bind]. right. eexists. split; [reflexivity|].
    cbn. repeat split; auto; try discriminate.
Qed.

(** What [analyzeCompilation] passes to [setResults]. *)
Lemma compilation_update_shape (JSON_parse : string -> Completion JSValue)
  (genAI : option GenerativeAI) (dockerFile requirementsFile : option File)
  (caps : ComputeCapabilities) :
  analyzeCompilation JSON_parse genAI dockerFile requirementsFile caps
  = no_update \/
  exists a,
    truthy_field a "totalEstimatedTime" = true /\
    analyzeCompilation JSON_parse genAI dockerFile requirementsFile caps
    = (fun prev =>
         {| dockerSteps := dockerSteps prev;
            requirements := requirements prev;
            totalSize := totalSize prev;
            internetSpeed := internetSpeed prev;
            estimatedTime := estimatedTime prev;
            compilationAnalysis := Some a |}).
Proof.
  unfold analyzeCompilation.
  destruct no_file_chosen; [now left|].
  destruct (match dockerFile with
            | Some f => text f
            | None => Normal ""
            end) as [d|]; cbn [bind]; [|now left].
  destruct (match requirementsFile with
            | Some f => text f
            | None => Normal ""
            end) as [r|]; cbn [bind]; [|now left].
  destruct (compilation_result_field JSON_parse genAI d r caps)
    as (a & Ha & Hf).
  rewrite Ha. right. exists a. split; [exact Hf | reflexivity].
Qed.

(** What [testInternetSpeed] passes to [setResults]. *)
Lemma speed_update_shape (results : AnalysisResults) (run : Run) :
  (exists x t,
     num_le (Fin 1) x = true /\
     testInternetSpeed results run
     = (fun prev =>
          {| dockerSteps := dockerSteps prev;
             requirements := requirements prev;
             totalSize := totalSize prev;
             internetSpeed := Some (round1 x);
             estimatedTime := Some t;
             compilationAnalysis := compilationAnalysis prev |})) \/
  testInternetSpeed results run
  = (fun prev =>
       {| dockerSteps := dockerSteps prev;
          requirements := requirements prev;
          totalSize := totalSize prev;
          internetSpeed :=
            Some (round1 (num_add (Fin 25)
                            (num_mul (Fin (random run)) (Fin 50))));
          estimatedTime := estimatedTime prev;
          compilationAnalysis := compilationAnalysis prev |}).
Proof.
  unfold testInternetSpeed.
  destruct (fetched run) as [[]|]; cbn [bind]; [|now right].
  match goal with
  | |- context [estimate (totalSize results) ?x] =>
      destruct (estimate (totalSize results) x) as [t|]; cbn [bind];
        [left; exists x, t | now right]
  end.
  split; [|reflexivity].
  apply max_with_1. apply measured_speed_not_NaN.
Qed.

Lemma override_twice {A : Type} (old new : option A) :
  override (override old new) new = override old new.
Proof. now destruct new. Qed.

(** X12. Updates of different handlers commute: whichever of two pending
    operations of different kinds settles first, the results record ends
    the same. *)
Theorem settlements_commute
  (JSON_parse : string -> Completion JSValue) (genAI : option GenerativeAI)
  (dockerFile requirementsFile dockerFile' requirementsFile' : option File)
  (caps : ComputeCapabilities) (results prev : AnalysisResults) (run : Run) :
  let files := analyzeFiles JSON_parse genAI dockerFile requirementsFile in
  let compilation :=
    analyzeCompilation JSON_parse genAI dockerFile' requirementsFile' caps in
  let speed := testInternetSpeed results run in
  files (compilation prev) = compilation (files prev) /\
  files (speed prev) = speed (files prev) /\
  compilation (speed prev) = speed (compilation prev).
Proof.
  intros files compilation speed. subst files compilation speed.
  destruct (files_update_shape JSON_parse genAI dockerFile requirementsFile)
    as [-> | (n & -> & H1 & H2 & H3 & _)];
  destruct (compilation_update_shape JSON_parse genAI dockerFile'
              requirementsFile' caps) as [-> | (a & _ & ->)];
  destruct (speed_update_shape results run) as [(x & t & _ & ->) | ->];
    unfold no_update, spread; cbn;
    rewrite ?H1, ?H2, ?H3; cbn; repeat split; reflexivity.
Qed.

(** X13. Each handler's update is idempotent: applying the update of one
    run twice gives what applying it once gives. *)
Theorem updates_are_idempotent
  (JSON_parse : string -> Completion JSValue) (genAI : option GenerativeAI)
  (dockerFile requirementsFile : option File)
  (caps : ComputeCapabilities) (results prev : AnalysisResults) (run : Run) :
  let files := analyzeFiles JSON_parse genAI dockerFile requirementsFile in
  let compilation :=
    analyzeCompilation JSON_parse genAI dockerFile requirementsFile caps in
  let speed := testInternetSpeed results run in
  files (files prev) = files prev /\
  compilation (compilation prev) = compilation prev /\
  speed (speed prev) = speed prev.
Proof.
  intros files compilation speed. subst files compilation speed.
  split; [|split].
  - destruct (files_update_shape JSON_parse genAI dockerFile requirementsFile)
      as [-> | (n & -> & _)]; [reflexivity|].
    unfold spread; cbn. now rewrite !override_twice.
  - destruct (compilation_update_shape JSON_parse genAI dockerFile
                requirementsFile caps) as [-> | (a & _ & ->)]; reflexivity.
  - destruct (speed_update_shape results run) as [(x & t & _ & ->) | ->];
      reflexivity.
Qed.

Lemma simulated_speed_at_least_1 (r : Q) :
  0 <= r < 1 ->
  num_le (Fin 1)
    (round1 (num_add (Fin 25) (num_mul (Fin r) (Fin 50)))) = true.
Proof.
  intros [H0 H1].
  change (num_add (Fin 25) (num_mul (Fin r) (Fin 50)))
    with (Fin (25 + r * 50)).
  apply round1_at_least_1. apply Qle_bool_iff. lra.
Qed.

Lemma results_ok_fields (r : AnalysisResults) :
  results_ok r = true <->
  optional Array_isArray (dockerSteps r) = true /\
  optional truthy (requirements r) = true /\
  optional truthy (totalSize r) = true /\
  present (requirements r) = present (totalSize r) /\
  optional (num_le (Fin 1)) (internetSpeed r) = true /\
  optional (fun v => truthy_field v "totalEstimatedTime")
    (compilationAnalysis r) = true.
Proof.
  unfold results_ok. rewrite !andb_true_iff, Bool.eqb_true_iff. tauto.
Qed.

Lemma optional_override {A : Type} (P : A -> bool) (old new : option A) :
  optional P old = true -> optional P new = true ->
  optional P (override old new) = true.
Proof. now destruct new. Qed.

(** X14. The results record keeps what the display relies on.  The initial
    record has the property below, and every update of every handler
    preserves it ([Math.random()] being in [0, 1)): [dockerSteps], when
    present, is an array; [requirements] and [totalSize] are present
    together and truthy; [internetSpeed], when present, is at least 1;
    [compilationAnalysis], when present, has a truthy
    [totalEstimatedTime]. *)
Theorem results_stay_ok
  (JSON_parse : string -> Completion JSValue) (genAI : option GenerativeAI)
  (dockerFile requirementsFile : option File)
  (caps : ComputeCapabilities) (results prev : AnalysisResults) (run : Run) :
  results_ok no_results = true /\
  (results_ok prev = true ->
   0 <= random run < 1 ->
   results_ok (analyzeFiles JSON_parse genAI dockerFile requirementsFile prev)
   = true /\
   results_ok (analyzeCompilation JSON_parse genAI dockerFile requirementsFile
                 caps prev) = true /\
   results_ok (testInternetSpeed results run prev) = true).
Proof.
  split; [reflexivity|].
  intros Hok Hr.
  apply results_ok_fields in Hok as (P1 & P2 & P3 & P4 & P5 & P6).
  split; [|split].
  - destruct (files_update_shape JSON_parse genAI dockerFile requirementsFile)
      as [-> | (n & -> & N1 & N2 & N3 & _ & _ & A1 & A2 & A3 & A4 & _)].
    + apply results_ok_fields. unfold no_update. auto 10.
    + apply results_ok_fields. unfold spread; cbn.
      rewrite ?N1, ?N2, ?N3. cbn.
      repeat split; auto using optional_override.
      destruct (requirements n), (totalSize n); cbn in *;
        try discriminate; auto.
  - destruct (compilation_update_shape JSON_parse genAI dockerFile
                requirementsFile caps) as [-> | (a & Ha & ->)];
      apply results_ok_fields; cbn; auto 10.
  - destruct (speed_update_shape results run) as [(x & t & Hx & ->) | ->];
      apply results_ok_fields; cbn; repeat split; auto.
    + now apply round1_at_least_1.
    + now apply simulated_speed_at_least_1.
Qed.

Lemma results_stay_ok_witness :
  results_ok
    (testInternetSpeed no_results (failed_run (1 # 3))
       (analyzeFiles Platform.JSON_parse
          (Some (answering numeric_total_response))
          (Some (readable "FROM node")) (Some (readable "flask"))
          no_results)) = true.
Proof.
  destruct (results_stay_ok Platform.JSON_parse
              (Some (answering numeric_total_response))
              (Some (readable "FROM node")) (Some (readable "flask"))
              default_capabilities no_results no_results (failed_run (1 # 3)))
    as [H0 H].
  destruct (H H0) as (Hf & _ & _);
    [split; [discriminate | reflexivity]|].
  destruct (results_stay_ok Platform.JSON_parse None None None
              default_capabilities no_results
              (analyzeFiles Platform.JSON_parse
                 (Some (answering numeric_total_response))
                 (Some (readable "FROM node")) (Some (readable "flask"))
                 no_results)
              (failed_run (1 # 3))) as [_ H'].
  destruct (H' Hf) as (_ & _ & Hs);
    [split; [discriminate | reflexivity]|].
  exact Hs.
Defined.

(** X15. [analyzeFiles] replaces only the parts for which a file is chosen,
    and all of them or none.  Without a requirements file [requirements]
    and [totalSize] stay as they were; without a Dockerfile [dockerSteps]
    stays as it was; when reading a chosen file fails nothing at all is
    stored, the analysis of the other file included; when no reading fails
    the analysis of the Dockerfile content is what is stored as
    [dockerSteps]. *)
Theorem files_update_by_file
  (JSON_parse : string -> Completion JSValue) (genAI : option GenerativeAI)
  (dockerFile requirementsFile : option File) (prev : AnalysisResults) :
  let next :=
    analyzeFiles JSON_parse genAI dockerFile requirementsFile prev in
  (requirementsFile = None ->
   requirements next = requirements prev /\ totalSize next = totalSize prev) /\
  (dockerFile = None -> dockerSteps next = dockerSteps prev) /\
  ((exists f, (dockerFile = Some f \/ requirementsFile = Some f) /\
              text f = Throw) ->
   next = prev) /\
  (forall f d,
     dockerFile = Some f -> text f = Normal d ->
     (forall g, requirementsFile = Some g -> text g <> Throw) ->
     exists v, analyzeDockerfile JSON_parse genAI d = Normal v /\
               dockerSteps next = Some v).
Proof.
  intros next. subst next.
  split; [|split; [|split]].
  - intros Hr.
    destruct (files_update_shape JSON_parse genAI dockerFile requirementsFile)
      as [-> | (n & -> & _ & _ & _ & _ & Hn & _)]; [now split|].
    destruct (Hn Hr) as [H1 H2]. unfold spread; cbn.
    now rewrite H1, H2.
  - intros Hd.
    destruct (files_update_shape JSON_parse genAI dockerFile requirementsFile)
      as [-> | (n & -> & _ & _ & _ & Hn & _)]; [reflexivity|].
    unfold spread; cbn. now rewrite (Hn Hd).
  - intros (f & Hf & Ht).
    unfold analyzeFiles, no_file_chosen.
    destruct Hf as [-> | ->].
    + rewrite Ht. cbn [bind]. now destruct requirementsFile.
    + rewrite Ht.
      destruct dockerFile as [[[dc|]]|]; cbn [bind text]; try reflexivity.
      destruct (analyzeDockerfile JSON_parse genAI dc); reflexivity.
  - intros f d Hf Hd Hg.
    destruct (files_update_shape JSON_parse genAI dockerFile requirementsFile)
      as [Hno | (n & -> & _ & _ & _ & _ & _ & _ & _ & _ & _ & Hn)].
    + exfalso. revert Hno. subst dockerFile.
      unfold analyzeFiles, no_file_chosen. rewrite Hd. cbn [bind].
      destruct (docker_result_is_array JSON_parse genAI d) as (v & Hv & _).
      rewrite Hv. cbn [bind].
      destruct requirementsFile as [[[rc|]]|]; cbn [bind text].
      * destruct (requirements_result_fields JSON_parse genAI rc)
          as (w & Hw & H1 & H2).
        destruct (truthy_field_value _ _ H1) as (x & Hx & _).
        destruct (truthy_field_value _ _ H2) as (y & Hy & _).
        rewrite Hw. cbn [bind]. rewrite Hx, Hy. cbn [bind].
        intros E. apply (f_equal (fun u => dockerSteps (u no_results))) in E.
        discriminate E.
      * exfalso. now apply (Hg _ eq_refl).
      * intros E. apply (f_equal (fun u => dockerSteps (u no_results))) in E.
        discriminate E.
    + destruct (Hn f d Hf Hd) as (v & Hv & Hs).
      exists v. split; [exact Hv|]. unfold spread; cbn. now rewrite Hs.
Qed.

Lemma files_update_by_file_witness :
  analyzeFiles Platform.JSON_parse None (Some (readable "FROM node"))
    (Some unreadable) (results_with "51.0 MB" None)
  = results_with "51.0 MB" None.
Proof.
  destruct (files_update_by_file Platform.JSON_parse None
              (Some (readable "FROM node")) (Some unreadable)
              (results_with "51.0 MB" None)) as (_ & _ & H & _).
  apply H. exists unreadable. split; [now right | reflexivity].
Defined.

(** ** The prompts *)

Lemma length_append (a b : string) :
  String.length (a ++ b) = (String.length a + String.length b)%nat.
Proof. induction a as [|x a IH]; simpl; [reflexivity | now rewrite IH]. Qed.

Lemma append_inv_tail (a b x : string) : a ++ x = b ++ x -> a = b.
Proof.
  intros H. apply (append_inj_length a b x x H).
  apply (f_equal String.length) in H. rewrite !length_append in H. lia.
Qed.

(** X16. The prompts of the two file analyses carry the whole content:
    two contents that differ give two prompts that differ. *)
Theorem file_prompts_are_injective (content content' : string) :
  (dockerfile_prompt content = dockerfile_prompt content' ->
   content = content') /\
  (requirements_prompt content = requirements_prompt content' ->
   content = content').
Proof.
  split; intros H.
  - unfold dockerfile_prompt in H.
    apply append_inv_head in H. now apply append_inv_tail in H.
  - unfold requirements_prompt in H.
    apply append_inv_head in H. now apply append_inv_tail in H.
Qed.

Lemma file_prompts_are_injective_witness :
  dockerfile_prompt "FROM node:20" <> dockerfile_prompt "FROM node:18".
Proof.
  intros H.
  apply (proj1 (file_prompts_are_injective "FROM node:20" "FROM node:18"))
    in H.
  discriminate H.
Defined.

Lemma tier_text_cancel (a b : Tier) (x y : string) :
  tier_text a ++ String "010" x = tier_text b ++ String "010" y ->
  a = b /\ x = y.
Proof.
  destruct a, b; simpl; intros H; try discriminate H;
    injection H as H; auto.
Qed.

Lemma architecture_text_cancel (a b : Architecture) (x y : string) :
  architecture_text a ++ String "010" x
  = architecture_text b ++ String "010" y ->
  a = b /\ x = y.
Proof.
  destruct a, b; simpl; intros H; try discriminate H;
    injection H as H; auto.
Qed.

Lemma environment_text_cancel (a b : Environment) (x y : string) :
  environment_text a ++ String "010" x
  = environment_text b ++ String "010" y ->
  a = b /\ x = y.
Proof.
  destruct a, b; simpl; intros H; try discriminate H;
    injection H as H; auto.
Qed.

Lemma compilation_prompt_capabilities (d r : string)
  (c c' : ComputeCapabilities) :
  compilation_prompt d r c = compilation_prompt d r c' -> c = c'.
Proof.
  intros H. unfold compilation_prompt in H.
  do 5 apply append_inv_head in H.
  apply tier_text_cancel in H as [Hcpu H].
  injection H as H.
  apply tier_text_cancel in H as [Hmem H].
  injection H as H.
  apply architecture_text_cancel in H as [Harch H].
  injection H as H.
  apply environment_text_cancel in H as [Henv _].
  destruct c, c'; simpl in *. congruence.
Qed.

(** X17. The capabilities form reaches the prompt.  [updateCapability]
    stores the value under its key and leaves the other three
    capabilities; and, the file contents being the same, two capability
    records give the same compilation prompt only if they are equal, so an
    update changes the prompt exactly when it changes the record. *)
Theorem capability_update_reaches_prompt (d r : string)
  (c : ComputeCapabilities) :
  (forall v, cpu (updateCapability c key_cpu v) = v /\
             memory (updateCapability c key_cpu v) = memory c /\
             architecture (updateCapability c key_cpu v) = architecture c /\
             environment (updateCapability c key_cpu v) = environment c) /\
  (forall v, memory (updateCapability c key_memory v) = v /\
             cpu (updateCapability c key_memory v) = cpu c /\
             architecture (updateCapability c key_memory v) = architecture c /\
             environment (updateCapability c key_memory v) = environment c) /\
  (forall v, architecture (updateCapability c key_architecture v) = v /\
             cpu (updateCapability c key_architecture v) = cpu c /\
             memory (updateCapability c key_architecture v) = memory c /\
             environment (updateCapability c key_architecture v)
             = environment c) /\
  (forall v, environment (updateCapability c key_environment v) = v /\
             cpu (updateCapability c key_environment v) = cpu c /\
             memory (updateCapability c key_environment v) = memory c /\
             architecture (updateCapability c key_environment v)
             = architecture c) /\
  (forall c', compilation_prompt d r c = compilation_prompt d r c' -> c = c') /\
  (forall key v,
     compilation_prompt d r (updateCapability c key v)
     = compilation_prompt d r c
     <-> updateCapability c key v = c).
Proof.
  repeat split; try reflexivity.
  - apply compilation_prompt_capabilities.
  - intros H. now apply compilation_prompt_capabilities in H.
  - intros H. now rewrite H.
Qed.

Lemma capability_update_reaches_prompt_witness :
  compilation_prompt "FROM node" "flask"
    (updateCapability default_capabilities key_architecture arm64)
  <> compilation_prompt "FROM node" "flask" default_capabilities.
Proof.
  intros H.
  destruct (capability_update_reaches_prompt "FROM node" "flask"
              default_capabilities) as (_ & _ & _ & _ & _ & Hiff).
  apply (Hiff key_architecture arm64) in H. discriminate H.
Defined.

(** X18. The compilation prompt does not delimit the two file contents: a
    Dockerfile text that contains the heading the template puts before the
    requirements gives the same prompt as the shorter Dockerfile with the
    rest moved in front of the requirements. *)
Theorem compilation_prompt_does_not_delimit (a b c : string)
  (caps : ComputeCapabilities) :
  compilation_prompt (a ++ requirements_heading ++ b) c caps
  = compilation_prompt a (b ++ requirements_heading ++ c) caps.
Proof.
  unfold compilation_prompt, requirements_heading.
  now rewrite !append_assoc.
Qed.

(** ** The snapshot the speed test reads *)

(** X19. The speed test reads the total size from the state its handler
    closed over, not from the state its update is applied to.  When that
    snapshot has no total size (or a falsy one) and the fetch fulfils, the
    estimate stored is the empty text, whatever total size and whatever
    earlier estimate the record holds by then. *)
Theorem estimate_reads_the_snapshot
  (results prev : AnalysisResults) (run : Run) :
  fetched run = Normal tt ->
  optional (fun v => negb (truthy v)) (totalSize results) = true ->
  estimatedTime (testInternetSpeed results run prev) = Some "".
Proof.
  intros Hf Hs. unfold testInternetSpeed, estimate. rewrite Hf. cbn [bind].
  destruct (totalSize results) as [v|]; cbn in Hs.
  - apply negb_true_iff in Hs. rewrite Hs. reflexivity.
  - reflexivity.
Qed.

Lemma estimate_reads_the_snapshot_witness :
  estimatedTime
    (testInternetSpeed no_results (measured_run 800)
       (results_with "51.0 MB" (Some "41 seconds"))) = Some "".
Proof.
  apply (estimate_reads_the_snapshot no_results
           (results_with "51.0 MB" (Some "41 seconds")) (measured_run 800));
    reflexivity.
Defined.

End MoreProperties.
